(** * AdfObs: observation-dataset resolution of the ADF diagnostics framework

    A shallow embedding of [lib/adf_obs.py].  The class [AdfObs] reads a few
    configuration values, loads a table of per-variable defaults from a YAML
    file, and, for a model-vs-obs run, decides for every requested variable
    which observation file is to be used.

    The embedding follows the Python text:
    - values produced by [yaml.load] are an inductive type [yaml], and the
      Python operators the constructor applies to them ([in], subscript,
      truth value, [Path(...)]) are partial functions on it;
    - [pathlib.Path] is modelled for the POSIX flavour by its root and its
      list of components;
    - the constructor runs in a small monad that records the calls made to
      the outside world (file tests, file reads, log lines, printed text) and
      carries a raised exception; a file test, like a file read, answers or
      raises;
    - a Python [dict] is an association list in insertion order, keys unique;
    - for the accessors, which return [copy.copy] of an attribute, objects
      live in a store and values refer to them by address. *)

From Stdlib Require Import String Ascii List Bool Arith ZArith Lia.
Import ListNotations.
Local Open Scope string_scope.
Local Open Scope list_scope.
Local Set Warnings "-register-all".

(* ===================================================================== *)
(** ** Strings *)
(* ===================================================================== *)

Module Str.

(** [s.split(sep)] for a one-character separator. *)
Fixpoint split (sep : ascii) (s : string) : list string :=
  match s with
  | EmptyString => [EmptyString]
  | String c s' =>
      if Ascii.eqb c sep then EmptyString :: split sep s'
      else match split sep s' with
           | [] => [String c EmptyString]
           | h :: t => String c h :: t
           end
  end.

(** [sub in s] for two strings: [sub] occurs in [s] as a contiguous run. *)
Fixpoint contains (sub s : string) : bool :=
  String.prefix sub s ||
  match s with
  | EmptyString => false
  | String _ s' => contains sub s'
  end.

(** [sep.join(l)]. *)
Definition join (sep : string) (l : list string) : string := String.concat sep l.

Definition nonempty (s : string) : bool :=
  match s with EmptyString => false | String _ _ => true end.

End Str.

(* ===================================================================== *)
(** ** [pathlib.Path], POSIX flavour *)
(* ===================================================================== *)

Module PosixPath.

(** A parsed path: the root (empty, one slash or two slashes) and the
    components after it.  A POSIX path has no drive. *)
Record Path : Type := mkPath { root : string; tail : list string }.

Definition slash : ascii := "/"%char.

(** [posixpath.splitroot]: the root and the rest of the text.  Exactly two
    leading slashes are a root of their own; one, or three and more, are the
    root ["/"]. *)
Definition splitroot (p : string) : string * string :=
  match p with
  | String c1 r1 =>
      if Ascii.eqb c1 slash then
        match r1 with
        | String c2 r2 =>
            if Ascii.eqb c2 slash then
              match r2 with
              | String c3 _ =>
                  if Ascii.eqb c3 slash then ("/", r1) else ("//", r2)
              | EmptyString => ("//", r2)
              end
            else ("/", r1)
        | EmptyString => ("/", r1)
        end
      else ("", p)
  | EmptyString => ("", p)
  end.

(** A component is kept when it is neither empty nor a single dot. *)
Definition keep_part (x : string) : bool :=
  Str.nonempty x && negb (String.eqb x ".").

(** [Path(s)] for a string [s]. *)
Definition of_string (s : string) : Path :=
  let '(r, rel) := splitroot s in
  mkPath r (filter keep_part (Str.split slash rel)).

(** [a / b]: an operand with a root discards everything to its left. *)
Definition joinpath (a b : Path) : Path :=
  if Str.nonempty (root b) then b
  else mkPath (root a) (tail a ++ tail b).

(** [p.name]: the last component, the empty string when there is none. *)
Definition name (p : Path) : string := last (tail p) "".

(** [p.is_absolute()]. *)
Definition is_absolute (p : Path) : bool := Str.nonempty (root p).

(** [str(p)]. *)
Definition to_string (p : Path) : string :=
  match root p, tail p with
  | EmptyString, [] => "."
  | r, t => r ++ Str.join "/" t
  end.

End PosixPath.

Infix "//" := PosixPath.joinpath (at level 40, left associativity).

(* ===================================================================== *)
(** ** Values read from YAML and the Python operators applied to them *)
(* ===================================================================== *)

(** Exceptions that can end the constructor.  [IOError] stands for
    [OSError] and its subclasses, of which it is the alias. *)
Inductive exn : Type :=
| TypeError
| KeyError
| AdfError
| IOError.

Inductive result (A : Type) : Type :=
| Ok (a : A)
| Raise (e : exn).
Arguments Ok {A} a.
Arguments Raise {A} e.

(** What [yaml.load(..., Loader=yaml.SafeLoader)] returns: [None], a bool, an
    int, a str, a list or a dict.  Keys of a dict are kept when they are
    strings: the constructor only ever looks up strings, and a key of another
    type never equals one.  Floats and timestamps are left out; under the
    operators below they behave like [YInt]. *)
Inductive yaml : Type :=
| YNull
| YBool (b : bool)
| YInt (z : Z)
| YStr (s : string)
| YSeq (l : list yaml)
| YMap (m : list (string * yaml)).

Module Py.

(** A dict as an association list in insertion order; the first binding of
    a key is the one seen. *)
Fixpoint lookup {V : Type} (k : string) (d : list (string * V)) : option V :=
  match d with
  | [] => None
  | (k', v) :: r => if String.eqb k' k then Some v else lookup k r
  end.

Definition keys {V : Type} (d : list (string * V)) : list string := map fst d.

(** [d[k] = v]: an existing key keeps its place and takes the new value, a
    new key goes to the end. *)
Fixpoint setitem {V : Type} (d : list (string * V)) (k : string) (v : V)
  : list (string * V) :=
  match d with
  | [] => [(k, v)]
  | (k', v') :: r =>
      if String.eqb k' k then (k', v) :: r else (k', v') :: setitem r k v
  end.

Definition is_str (k : string) (y : yaml) : bool :=
  match y with YStr s => String.eqb s k | _ => false end.

(** [k in c] for a string [k]: key test on a dict, element test on a list,
    substring test on a str; any other operand is not iterable. *)
Definition contains (k : string) (c : yaml) : result bool :=
  match c with
  | YMap m => Ok (match lookup k m with Some _ => true | None => false end)
  | YSeq l => Ok (existsb (is_str k) l)
  | YStr s => Ok (Str.contains k s)
  | YNull | YBool _ | YInt _ => Raise TypeError
  end.

(** [c[k]] for a string [k]: only a dict can be indexed by a string. *)
Definition getitem (c : yaml) (k : string) : result yaml :=
  match c with
  | YMap m => match lookup k m with Some v => Ok v | None => Raise KeyError end
  | _ => Raise TypeError
  end.

(** Truth value of an object, as [if x:] and [not x] take it. *)
Definition truthy (y : yaml) : bool :=
  match y with
  | YNull => false
  | YBool b => b
  | YInt z => negb (Z.eqb z 0)
  | YStr s => Str.nonempty s
  | YSeq l => match l with [] => false | _ => true end
  | YMap m => match m with [] => false | _ => true end
  end.

(** Truth value of an optional string ([None] or a str). *)
Definition truthy_opt (o : option string) : bool :=
  match o with None => false | Some s => Str.nonempty s end.

(** [os.fspath], which [Path(...)] calls on its argument: a str is taken,
    anything else YAML can give is refused. *)
Definition fspath (y : yaml) : result string :=
  match y with
  | YStr s => Ok s
  | _ => Raise TypeError
  end.

End Py.

(* ===================================================================== *)
(** ** The outside world and the monad of the constructor *)
(* ===================================================================== *)

(** A snapshot of the file system, and the place of this module in it. *)
Record World : Type := mkWorld {
  (** [Path(__file__).parent] *)
  adf_lib_dir : PosixPath.Path;
  (** [p.is_file()]: the answer, or the exception it ends with.  The method
      answers no when the system reports that nothing is at the path, and
      lets every other [OSError] of the underlying [stat] call through (a
      name that is too long, a directory that may not be searched). *)
  is_file : PosixPath.Path -> result bool;
  (** [open(f)] followed by [yaml.load] *)
  yaml_load : string -> result yaml
}.

(** Calls to the outside, in the order they are made. *)
Inductive event : Type :=
| IsFile (p : PosixPath.Path)
| OpenYaml (f : string)
| DebugLog (msg : string)
| Print (msg : string).

(** A computation: the events it made, and its value or the exception that
    ended it. *)
Definition M (A : Type) : Type := list event * result A.

Definition ret {A : Type} (a : A) : M A := ([], Ok a).

Definition bind {A B : Type} (m : M A) (f : A -> M B) : M B :=
  match m with
  | (t, Ok a) => let '(t', r) := f a in (t ++ t', r)
  | (t, Raise e) => (t, Raise e)
  end.

Definition emit (e : event) : M unit := ([e], Ok tt).

Definition lift {A : Type} (r : result A) : M A := ([], r).

Definition trace {A : Type} (m : M A) : list event := fst m.
Definition outcome {A : Type} (m : M A) : result A := snd m.

Declare Scope monad_scope.
Delimit Scope monad_scope with monad.
Notation "x <- c1 ;; c2" := (bind c1 (fun x => c2))
  (at level 61, c1 at next level, right associativity) : monad_scope.
Notation "' pat <- c1 ;; c2" := (bind c1 (fun x => match x with pat => c2 end))
  (at level 61, pat pattern, c1 at next level, right associativity) : monad_scope.
Notation "c1 ;; c2" := (bind c1 (fun _ => c2))
  (at level 61, right associativity) : monad_scope.
Local Open Scope monad_scope.

(* ===================================================================== *)
(** ** The configuration *)
(* ===================================================================== *)

(** Modelled from the spec: the configuration reader [AdfConfig] (method
    [read_config_var], with its [required] flag, and [expand_references]) is
    not part of this file.  The spec gives the keys the constructor reads and
    their types, with string templates already expanded: [use_defaults] and
    [compare_obs] are booleans, [custom_defaults] and [obs_data_loc] optional
    paths, [diag_var_list] a list of strings; a required key that is absent
    is a fatal error. *)
Record BasicInfo : Type := mkBasicInfo {
  use_defaults : bool;
  custom_defaults : option string;
  compare_obs : bool;
  obs_data_loc : option string
}.

Record Config : Type := mkConfig {
  diag_basic_info : option BasicInfo;
  diag_var_list : option (list string)
}.

(** Modelled from the spec: [read_config_var(..., required=True)]. *)
Definition read_config_var_required {A : Type} (v : option A) : M A :=
  match v with
  | Some a => ret a
  | None => lift (Raise AdfError)
  end.

(* ===================================================================== *)
(** ** The class [AdfObs] *)
(* ===================================================================== *)

(** One entry of the observations dictionary: the dict literal with the keys
    ["obs_file"], ["obs_name"] and ["obs_var"]. *)
Record ObsRecord : Type := mkObsRecord {
  obs_file : PosixPath.Path;
  obs_name : yaml;
  obs_var : yaml
}.

Definition obs_dict : Type := list (string * ObsRecord).

(** The private attributes of an instance. *)
Record AdfObs : Type := mkAdfObs {
  __use_defaults : bool;
  __variable_defaults : yaml;
  __diag_var_list : list string;
  __compare_obs : bool;
  __var_obs_dict : obs_dict
}.

Definition nl : string := String (ascii_of_nat 10) EmptyString.

(** The text printed when no observation was found for any variable. *)
Definition wmsg : string :=
  "!!!!WARNING!!!!" ++ nl ++
  "No observations found for any variables, but this is a model vs obs run!" ++ nl ++
  "ADF will still calculate time series and climatologies if requested," ++
  " but will stop there." ++ nl ++
  "If this result is unexpected, then run with '--debug'" ++
  " and check the log for messages." ++ nl ++
  "!!!!!!!!!!!!!!!" ++ nl.

Definition msg_not_found (given var : string) : string :=
  "Unable to find obs file '" ++ given ++ "' " ++ "for variable '" ++ var ++ "'.".

Definition msg_no_file (var : string) : string :=
  "No observations file was listed for variable '" ++ var ++ "'.".

Definition msg_no_defaults (var _defaults_file : string) : string :=
  "Variable '" ++ var ++ "' not found in variable defaults file: `"
  ++ _defaults_file ++ "`".

Section Constructor.

Variable w : World.

Definition check_is_file (p : PosixPath.Path) : M bool :=
  emit (IsFile p) ;; lift (is_file w p).

Definition open_yaml (f : string) : M yaml :=
  emit (OpenYaml f) ;; lift (yaml_load w f).

(** The defaults file: the custom one when given, else the file bundled
    next to this module. *)
Definition defaults_file (custom : option string) : string :=
  match custom with
  | Some f => f
  | None =>
      PosixPath.to_string
        (adf_lib_dir w // PosixPath.of_string "adf_variable_defaults.yaml")
  end.

(** The body of the loop over the variable list (lines 125-193), run on the
    observations dictionary built so far. *)
Definition resolve_var (obs_data_loc : option string) (_defaults_file : string)
    (_variable_defaults : yaml) (d : obs_dict) (var : string) : M obs_dict :=
  known <- lift (Py.contains var _variable_defaults) ;;
  if known then
    default_var_dict <- lift (Py.getitem _variable_defaults var) ;;
    has_file <- lift (Py.contains "obs_file" default_var_dict) ;;
    if has_file then
      given <- lift (Py.getitem default_var_dict "obs_file") ;;
      given <- lift (Py.fspath given) ;;
      let obs_file_path := PosixPath.of_string given in
      here <- check_is_file obs_file_path ;;
      '(obs_file_path, found) <-
        (if negb here then
           match obs_data_loc with
           | Some loc =>
               if Py.truthy_opt obs_data_loc then
                 let obs_file_path := PosixPath.of_string loc // obs_file_path in
                 there <- check_is_file obs_file_path ;;
                 ret (obs_file_path, there)
               else ret (obs_file_path, false)
           | None => ret (obs_file_path, false)
           end
         else ret (obs_file_path, true)) ;;
      if found : bool then
        has_name <- lift (Py.contains "obs_name" default_var_dict) ;;
        obs_name <-
          (if has_name : bool then lift (Py.getitem default_var_dict "obs_name")
           else ret (YStr (PosixPath.name obs_file_path))) ;;
        has_var <- lift (Py.contains "obs_var_name" default_var_dict) ;;
        obs_var_name <-
          (if has_var : bool then lift (Py.getitem default_var_dict "obs_var_name")
           else ret (YStr var)) ;;
        ret (Py.setitem d var (mkObsRecord obs_file_path obs_name obs_var_name))
      else
        emit (DebugLog (msg_not_found given var)) ;; ret d
    else
      emit (DebugLog (msg_no_file var)) ;; ret d
  else
    emit (DebugLog (msg_no_defaults var _defaults_file)) ;; ret d.

(** [for var in l: body], threading the dictionary. *)
Fixpoint for_each (body : obs_dict -> string -> M obs_dict)
    (l : list string) (d : obs_dict) : M obs_dict :=
  match l with
  | [] => ret d
  | var :: rest => d' <- body d var ;; for_each body rest d'
  end.

Definition is_empty {A : Type} (l : list A) : bool :=
  match l with [] => true | _ => false end.

(** [AdfObs.__init__], from the configuration already read from its file. *)
Definition init (cfg : Config) : M AdfObs :=
  _basic_info <- read_config_var_required (diag_basic_info cfg) ;;
  let use_defaults_ := use_defaults _basic_info in
  variable_defaults_ <-
    (if use_defaults_ then
       open_yaml (defaults_file (custom_defaults _basic_info))
     else ret (YMap [])) ;;
  diag_var_list_ <- read_config_var_required (diag_var_list cfg) ;;
  let compare_obs_ := compare_obs _basic_info in
  if negb compare_obs_ then
    ret (mkAdfObs use_defaults_ variable_defaults_ diag_var_list_ compare_obs_ [])
  else
    let obs_data_loc_ := obs_data_loc _basic_info in
    let _defaults_file := defaults_file (custom_defaults _basic_info) in
    _variable_defaults <-
      (if negb (Py.truthy variable_defaults_) then open_yaml _defaults_file
       else ret variable_defaults_) ;;
    var_obs_dict_ <-
      for_each (resolve_var obs_data_loc_ _defaults_file _variable_defaults)
               diag_var_list_ [] ;;
    (if is_empty var_obs_dict_ then emit (Print wmsg) else ret tt) ;;
    ret (mkAdfObs use_defaults_ variable_defaults_ diag_var_list_ compare_obs_
                  var_obs_dict_).

End Constructor.

(** The properties of the class, read as values.  Each returns
    [copy.copy] of the attribute, which has the attribute's value; what the
    copy shares with the attribute is the subject of the store model at the
    end of this file. *)
Definition variable_defaults (o : AdfObs) : yaml := __variable_defaults o.
Definition use_defaults_of (o : AdfObs) : bool := __use_defaults o.
Definition compare_obs_of (o : AdfObs) : bool := __compare_obs o.
Definition diag_var_list_of (o : AdfObs) : list string := __diag_var_list o.
Definition var_obs_dict (o : AdfObs) : obs_dict := __var_obs_dict o.

(* ------------------------------------------------------------------- *)
(** *** Runs on the scenarios of the specification *)

Module Scenario.

Definition lib : PosixPath.Path := PosixPath.of_string "/adf/lib".

Definition only (files : list string) (p : PosixPath.Path) : result bool :=
  Ok (existsb (String.eqb (PosixPath.to_string p)) files).

(** The file system of [only], except that the test of the paths in [bad]
    ends with an [OSError]. *)
Definition only_but (bad files : list string) (p : PosixPath.Path)
  : result bool :=
  if existsb (String.eqb (PosixPath.to_string p)) bad then Raise IOError
  else only files p.

Definition one_file (f : string) (y : yaml) (g : string) : result yaml :=
  if String.eqb f g then Ok y else Raise IOError.

Definition bundled : string := "/adf/lib/adf_variable_defaults.yaml".

Definition C_TS : yaml := YMap [("TS", YMap [("obs_file", YStr "/obs/TS.nc")])].

Definition w1 : World := mkWorld lib (only ["/obs/TS.nc"]) (one_file bundled C_TS).

Definition cfg (use cmp : bool) (loc : option string) (L : list string) : Config :=
  mkConfig (Some (mkBasicInfo use None cmp loc)) (Some L).

(** The instance the constructor builds in the first scenario. *)
Definition o1 : AdfObs :=
  mkAdfObs true C_TS ["TS"; "PRECT"] true
    [("TS", mkObsRecord (PosixPath.mkPath "/" ["obs"; "TS.nc"])
                        (YStr "TS.nc") (YStr "TS"))].

(** A file given by a relative name that exists where the program runs. *)
Definition C_rel : yaml := YMap [("TA", YMap [("obs_file", YStr "ta.nc")])].
Definition w_rel : World := mkWorld lib (only ["ta.nc"]) (one_file bundled C_rel).

(** A file found only under the fallback directory, with its names given. *)
Definition C_fb : yaml :=
  YMap [("TA", YMap [("obs_file", YStr "sub/ta.nc");
                     ("obs_name", YStr "ERA5");
                     ("obs_var_name", YStr "t")])].
Definition w_fb : World :=
  mkWorld lib (only ["/obs/sub/ta.nc"]) (one_file bundled C_fb).

(** An absolute name that does not exist, while files of that name exist
    under the fallback directory. *)
Definition C_abs : yaml := YMap [("TS", YMap [("obs_file", YStr "/data/TS.nc")])].
Definition w_abs : World :=
  mkWorld lib (only ["/obs/data/TS.nc"; "/obs/TS.nc"]) (one_file bundled C_abs).

(** An absolute name at which nothing exists and whose test ends with an
    [OSError], as the test of a name longer than the system allows does. *)
Definition C_long : yaml :=
  YMap [("TS", YMap [("obs_file", YStr "/data/name-too-long.nc")])].
Definition w_long : World :=
  mkWorld lib (only_but ["/data/name-too-long.nc"] []) (one_file bundled C_long).

(** A null entry behind a variable whose file test ends with an
    [OSError]. *)
Definition C_long_null : yaml :=
  YMap [("A", YMap [("obs_file", YStr "/data/name-too-long.nc")]);
        ("B", YNull)].
Definition w_long_null : World :=
  mkWorld lib (only_but ["/data/name-too-long.nc"] [])
          (one_file bundled C_long_null).

(** Entries that are not mappings: a string and a null. *)
Definition C_str : yaml := YMap [("TS", YStr "n/a")].
Definition w_str : World := mkWorld lib (only []) (one_file bundled C_str).
Definition C_null : yaml := YMap [("TS", YNull)].
Definition w_null : World := mkWorld lib (only []) (one_file bundled C_null).

End Scenario.

(* ===================================================================== *)
(** ** Vocabulary of the statements *)
(* ===================================================================== *)

Definition mem (k : string) (l : list string) : bool :=
  existsb (String.eqb k) l.

(** The first occurrences of the elements of a list, in order. *)
Fixpoint dedup (l : list string) : list string :=
  match l with
  | [] => []
  | x :: r => x :: filter (fun y => negb (String.eqb y x)) (dedup r)
  end.

(** The elements of a list up to and including the first that satisfies
    [f]: what a search that stops at the first success looks at. *)
Fixpoint until {A : Type} (f : A -> bool) (l : list A) : list A :=
  match l with
  | [] => []
  | x :: r => if f x then [x] else x :: until f r
  end.

(** The file test answers yes. *)
Definition exists_file (w : World) (p : PosixPath.Path) : bool :=
  match is_file w p with
  | Ok true => true
  | _ => false
  end.

(** The file test does not answer no: it answers yes or raises, and the
    search goes no further. *)
Definition stops (w : World) (p : PosixPath.Path) : bool :=
  match is_file w p with
  | Ok false => false
  | _ => true
  end.

(** The first path of a list whose test answers yes, when the tests before
    it answer no; the exception of the first test that raises before that. *)
Fixpoint first_existing (w : World) (l : list PosixPath.Path)
  : result (option PosixPath.Path) :=
  match l with
  | [] => Ok None
  | p :: r =>
      match is_file w p with
      | Ok true => Ok (Some p)
      | Ok false => first_existing w r
      | Raise e => Raise e
      end
  end.

(** The fallback directory when [if obs_data_loc:] holds. *)
Definition fallback (loc : option string) : option PosixPath.Path :=
  match loc with
  | Some s => if Str.nonempty s then Some (PosixPath.of_string s) else None
  | None => None
  end.

(** The candidate locations of a file, in the order they are tried. *)
Definition candidates (loc : option string) (p : PosixPath.Path)
  : list PosixPath.Path :=
  p :: match fallback loc with Some F => [F // p] | None => [] end.

(** The record stored for [var] when its file was accepted at [q], from the
    mapping [m] of its defaults. *)
Definition record_for (m : list (string * yaml)) (var : string)
    (q : PosixPath.Path) : ObsRecord :=
  mkObsRecord q
    (match Py.lookup "obs_name" m with
     | Some n => n
     | None => YStr (PosixPath.name q)
     end)
    (match Py.lookup "obs_var_name" m with
     | Some n => n
     | None => YStr var
     end).

(** The text under ["obs_file"] in the defaults of a variable, when the
    defaults are a mapping of variables to mappings and the value is a
    text. *)
Definition obs_file_text (C : list (string * yaml)) (v : string) : option string :=
  match Py.lookup v C with
  | Some (YMap m) =>
      match Py.lookup "obs_file" m with
      | Some (YStr s) => Some s
      | _ => None
      end
  | _ => None
  end.

(** The paths a turn of the loop is to test for a variable: the candidates
    of its file, up to and including the first whose test does not answer
    no; none for a variable without a text under ["obs_file"]. *)
Definition planned_checks (w : World) (loc : option string)
    (C : list (string * yaml)) (v : string) : list PosixPath.Path :=
  match obs_file_text C v with
  | Some s => until (stops w) (candidates loc (PosixPath.of_string s))
  | None => []
  end.


(** An entry that is neither a mapping, a sequence nor a string. *)
Definition is_scalar (y : yaml) : bool :=
  match y with
  | YNull | YBool _ | YInt _ => true
  | YStr _ | YSeq _ | YMap _ => false
  end.

Definition is_mapping (y : yaml) : bool :=
  match y with YMap _ => true | _ => false end.

Section Verdict.

Variable w : World.
Variable obs_data_loc_ : option string.
Variable _defaults_file : string.
Variable vd : yaml.

(** What one turn of the loop decides for a variable, whatever the
    dictionary holds: the record to store, nothing (the variable is
    skipped), or the exception that ends the constructor. *)
Definition verdict (var : string) : result (option ObsRecord) :=
  match outcome (resolve_var w obs_data_loc_ _defaults_file vd [] var) with
  | Ok [] => Ok None
  | Ok ((_, r) :: _) => Ok (Some r)
  | Raise e => Raise e
  end.

Definition store_verdict (d : obs_dict) (var : string) : obs_dict :=
  match verdict var with
  | Ok (Some r) => Py.setitem d var r
  | _ => d
  end.

(** The variable is given a record. *)
Definition accepted (var : string) : bool :=
  match verdict var with
  | Ok (Some _) => true
  | _ => false
  end.

(** The turn for the variable ends without an exception. *)
Definition passes (var : string) : bool :=
  match verdict var with
  | Ok _ => true
  | Raise _ => false
  end.

End Verdict.


(** The paths tested with [is_file]. *)
Definition file_checks (t : list event) : list PosixPath.Path :=
  flat_map (fun e => match e with IsFile p => [p] | _ => [] end) t.

(** The lines sent to [debug_log]. *)
Definition logged (t : list event) : list string :=
  flat_map (fun e => match e with DebugLog s => [s] | _ => [] end) t.

(** The files opened to be read as YAML. *)
Definition opened (t : list event) : list string :=
  flat_map (fun e => match e with OpenYaml f => [f] | _ => [] end) t.

Definition result_map {A B : Type} (f : A -> B) (r : result A) : result B :=
  match r with
  | Ok a => Ok (f a)
  | Raise e => Raise e
  end.

(** The same section of the configuration with another [use_defaults]. *)
Definition with_use_defaults (b : bool) (bi : BasicInfo) : BasicInfo :=
  mkBasicInfo b (custom_defaults bi) (compare_obs bi) (obs_data_loc bi).

(* ===================================================================== *)
(** ** Objects and references: what [copy.copy] shares *)
(* ===================================================================== *)

Module Store.

Definition addr : Type := nat.

(** A Python value: an immutable object, or a reference to a mutable one. *)
Inductive value : Type :=
| VNone
| VBool (b : bool)
| VInt (z : Z)
| VStr (s : string)
| VPath (p : PosixPath.Path)
| VRef (a : addr).

(** A mutable object: a dict or a list, holding values. *)
Inductive object : Type :=
| ODict (items : list (string * value))
| OList (items : list value).

Definition heap : Type := list object.

Definition alloc (h : heap) (o : object) : heap * value :=
  (h ++ [o], VRef (length h)).

Fixpoint update (h : heap) (a : addr) (o : object) : heap :=
  match h, a with
  | [], _ => []
  | _ :: r, O => o :: r
  | x :: r, S a' => x :: update r a' o
  end.

(** [copy.copy(v)]: an immutable value is returned as it is; of a dict or a
    list a new object is made that holds the same values, so what the
    items refer to is shared with the original. *)
Definition copy_copy (h : heap) (v : value) : heap * value :=
  match v with
  | VRef a =>
      match nth_error h a with
      | Some o => alloc h o
      | None => (h, v)
      end
  | _ => (h, v)
  end.

(** [v[k]] read through a reference to a dict. *)
Definition getitem (h : heap) (v : value) (k : string) : option value :=
  match v with
  | VRef a =>
      match nth_error h a with
      | Some (ODict items) => Py.lookup k items
      | _ => None
      end
  | _ => None
  end.

(** [v[k1][k2]...]. *)
Fixpoint navigate (h : heap) (v : value) (path : list string) : option value :=
  match path with
  | [] => Some v
  | k :: rest =>
      match getitem h v k with
      | Some v' => navigate h v' rest
      | None => None
      end
  end.

Fixpoint remove_key {V : Type} (k : string) (d : list (string * V))
  : list (string * V) :=
  match d with
  | [] => []
  | (k', v) :: r => if String.eqb k' k then r else (k', v) :: remove_key k r
  end.

(** What a caller can do to a value it was handed: assign or delete a key
    of the dict reached along [path], or append to the list reached. *)
Inductive caller_op : Type :=
| SetItem (path : list string) (k : string) (v : value)
| DelItem (path : list string) (k : string)
| Append (path : list string) (v : value).

Definition op_path (op : caller_op) : list string :=
  match op with
  | SetItem p _ _ | DelItem p _ | Append p _ => p
  end.

(** The heap after the operation; [None] when Python raises instead. *)
Definition apply_op (h : heap) (r : value) (op : caller_op) : option heap :=
  match navigate h r (op_path op) with
  | Some (VRef a) =>
      match nth_error h a, op with
      | Some (ODict items), SetItem _ k v =>
          Some (update h a (ODict (Py.setitem items k v)))
      | Some (ODict items), DelItem _ k =>
          match Py.lookup k items with
          | Some _ => Some (update h a (ODict (remove_key k items)))
          | None => None
          end
      | Some (OList items), Append _ v =>
          Some (update h a (OList (items ++ [v])))
      | _, _ => None
      end
  | _ => None
  end.

(** A sequence of operations; one that raises leaves the heap as it was. *)
Fixpoint apply_ops (h : heap) (r : value) (ops : list caller_op) : heap :=
  match ops with
  | [] => h
  | op :: rest =>
      match apply_op h r op with
      | Some h' => apply_ops h' r rest
      | None => apply_ops h r rest
      end
  end.

(** Values, objects and operations that carry no reference. *)
Definition flat_value (v : value) : bool :=
  match v with VRef _ => false | _ => true end.

Definition flat_object (o : object) : bool :=
  match o with
  | ODict items => forallb (fun kv => flat_value (snd kv)) items
  | OList items => forallb flat_value items
  end.

Definition flat_op (op : caller_op) : bool :=
  match op with
  | SetItem _ _ v | Append _ v => flat_value v
  | DelItem _ _ => true
  end.

Definition top_level (op : caller_op) : bool :=
  match op_path op with [] => true | _ => false end.

(** The objects [yaml.load] built, placed in the heap. *)
Fixpoint store_yaml (y : yaml) (h : heap) {struct y} : heap * value :=
  match y with
  | YNull => (h, VNone)
  | YBool b => (h, VBool b)
  | YInt z => (h, VInt z)
  | YStr s => (h, VStr s)
  | YSeq l =>
      let fix go (l : list yaml) (h : heap) : heap * list value :=
        match l with
        | [] => (h, [])
        | y :: r =>
            let '(h1, v) := store_yaml y h in
            let '(h2, vs) := go r h1 in
            (h2, v :: vs)
        end in
      let '(h', vs) := go l h in
      alloc h' (OList vs)
  | YMap m =>
      let fix go (m : list (string * yaml)) (h : heap)
        : heap * list (string * value) :=
        match m with
        | [] => (h, [])
        | (k, y) :: r =>
            let '(h1, v) := store_yaml y h in
            let '(h2, kvs) := go r h1 in
            (h2, (k, v) :: kvs)
        end in
      let '(h', kvs) := go m h in
      alloc h' (ODict kvs)
  end.

(** The observations dictionary: one dict per variable, built by the dict
    literal of lines 171-174, under a dict keyed by variable. *)
Fixpoint store_records (d : obs_dict) (h : heap) : heap * list (string * value) :=
  match d with
  | [] => (h, [])
  | (var, r) :: rest =>
      let '(h1, vname) := store_yaml (obs_name r) h in
      let '(h2, vvar) := store_yaml (obs_var r) h1 in
      let '(h3, vrec) :=
        alloc h2 (ODict [("obs_file", VPath (obs_file r));
                         ("obs_name", vname);
                         ("obs_var", vvar)]) in
      let '(h4, kvs) := store_records rest h3 in
      (h4, (var, vrec) :: kvs)
  end.

Definition store_obs_dict (d : obs_dict) (h : heap) : heap * value :=
  let '(h', kvs) := store_records d h in
  alloc h' (ODict kvs).

(** The attributes of an instance, as values over a heap. *)
Record instance : Type := mkInstance {
  a_use_defaults : value;
  a_variable_defaults : value;
  a_diag_var_list : value;
  a_compare_obs : value;
  a_var_obs_dict : value
}.

(** The instance whose attributes hold what the constructor computed. *)
Definition new_instance (o : AdfObs) : heap * instance :=
  let '(h1, vdef) := store_yaml (__variable_defaults o) [] in
  let '(h2, vlist) := alloc h1 (OList (map VStr (__diag_var_list o))) in
  let '(h3, vobs) := store_obs_dict (__var_obs_dict o) h2 in
  (h3, mkInstance (VBool (__use_defaults o)) vdef vlist
                  (VBool (__compare_obs o)) vobs).

(** The five properties (lines 210-245): each is [copy.copy] of its
    attribute. *)
Definition prop_variable_defaults (h : heap) (self : instance) : heap * value :=
  copy_copy h (a_variable_defaults self).
Definition prop_use_defaults (h : heap) (self : instance) : heap * value :=
  copy_copy h (a_use_defaults self).
Definition prop_compare_obs (h : heap) (self : instance) : heap * value :=
  copy_copy h (a_compare_obs self).
Definition prop_diag_var_list (h : heap) (self : instance) : heap * value :=
  copy_copy h (a_diag_var_list self).
Definition prop_var_obs_dict (h : heap) (self : instance) : heap * value :=
  copy_copy h (a_var_obs_dict self).

(** The content of a value read all the way down. *)
Inductive deep : Type :=
| DNone
| DBool (b : bool)
| DInt (z : Z)
| DStr (s : string)
| DPath (p : PosixPath.Path)
| DList (l : list deep)
| DDict (m : list (string * deep)).

Fixpoint traverse {A B : Type} (f : A -> option B) (l : list A) : option (list B) :=
  match l with
  | [] => Some []
  | x :: r =>
      match f x, traverse f r with
      | Some y, Some ys => Some (y :: ys)
      | _, _ => None
      end
  end.

(** Reading with a bound on the depth; [None] beyond it or at a dangling
    reference. *)
Fixpoint snapshot (n : nat) (h : heap) (v : value) : option deep :=
  match v with
  | VNone => Some DNone
  | VBool b => Some (DBool b)
  | VInt z => Some (DInt z)
  | VStr s => Some (DStr s)
  | VPath p => Some (DPath p)
  | VRef a =>
      match n with
      | O => None
      | S n' =>
          match nth_error h a with
          | Some (ODict items) =>
              option_map DDict
                (traverse (fun kv =>
                             option_map (pair (fst kv)) (snapshot n' h (snd kv)))
                          items)
          | Some (OList items) =>
              option_map DList (traverse (snapshot n' h) items)
          | None => None
          end
      end
  end.

End Store.

(** The properties of the class beside the attributes they copy, and the
    two loops of [Store.store_yaml] as functions of their own. *)
Module Access.

Import Store.

Definition table : list ((instance -> value) * (heap -> instance -> heap * value)) :=
  [(a_variable_defaults, prop_variable_defaults);
   (a_use_defaults, prop_use_defaults);
   (a_compare_obs, prop_compare_obs);
   (a_diag_var_list, prop_diag_var_list);
   (a_var_obs_dict, prop_var_obs_dict)].

(** The properties whose attribute is a bool or the list of variable
    names. *)
Definition flat_table
  : list ((instance -> value) * (heap -> instance -> heap * value)) :=
  [(a_use_defaults, prop_use_defaults);
   (a_compare_obs, prop_compare_obs);
   (a_diag_var_list, prop_diag_var_list)].

Definition thread_list (f : yaml -> heap -> heap * value)
  : list yaml -> heap -> heap * list value :=
  fix go (l : list yaml) (h : heap) : heap * list value :=
    match l with
    | [] => (h, [])
    | y :: r =>
        let '(h1, v) := f y h in
        let '(h2, vs) := go r h1 in
        (h2, v :: vs)
    end.

Definition thread_items (f : yaml -> heap -> heap * value)
  : list (string * yaml) -> heap -> heap * list (string * value) :=
  fix go (m : list (string * yaml)) (h : heap) : heap * list (string * value) :=
    match m with
    | [] => (h, [])
    | (k, y) :: r =>
        let '(h1, v) := f y h in
        let '(h2, kvs) := go r h1 in
        (h2, (k, v) :: kvs)
    end.

End Access.

Section YamlInduction.

Variable P : yaml -> Prop.
Hypothesis HNull : P YNull.
Hypothesis HBool : forall b, P (YBool b).
Hypothesis HInt : forall z, P (YInt z).
Hypothesis HStr : forall s, P (YStr s).
Hypothesis HSeq : forall l, Forall P l -> P (YSeq l).
Hypothesis HMap : forall m, Forall (fun kv => P (snd kv)) m -> P (YMap m).

(** Induction on a value of YAML, through its lists. *)
Fixpoint yaml_induct (y : yaml) : P y :=
  match y with
  | YNull => HNull
  | YBool b => HBool b
  | YInt z => HInt z
  | YStr s => HStr s
  | YSeq l =>
      HSeq l ((fix go (l : list yaml) : Forall P l :=
                 match l with
                 | [] => Forall_nil P
                 | x :: r => Forall_cons x (yaml_induct x) (go r)
                 end) l)
  | YMap m =>
      HMap m ((fix go (m : list (string * yaml))
                 : Forall (fun kv => P (snd kv)) m :=
                 match m with
                 | [] => Forall_nil _
                 | kv :: r =>
                     Forall_cons kv (yaml_induct (snd kv)) (go r)
                 end) m)
  end.

End YamlInduction.

(* ===================================================================== *)
(** ** Laws of the monad *)
(* ===================================================================== *)

Section MonadLaws.

Context {A B : Type}.

Lemma outcome_bind (m : M A) (f : A -> M B) :
  outcome (bind m f) =
  match outcome m with Ok a => outcome (f a) | Raise e => Raise e end.
Proof.
  destruct m as [t [a|e]]; simpl; [destruct (f a)|]; reflexivity.
Qed.

Lemma trace_bind (m : M A) (f : A -> M B) :
  trace (bind m f) =
  trace m ++ match outcome m with Ok a => trace (f a) | Raise _ => [] end.
Proof.
  destruct m as [t [a|e]]; simpl; [destruct (f a)|]; simpl;
    rewrite ?app_nil_r; reflexivity.
Qed.

Lemma bind_ret_l (a : A) (f : A -> M B) : bind (ret a) f = f a.
Proof. unfold bind, ret. destruct (f a); reflexivity. Qed.

Lemma bind_lift_ok (a : A) (f : A -> M B) : bind (lift (Ok a)) f = f a.
Proof. exact (bind_ret_l a f). Qed.

Lemma bind_lift_raise (e : exn) (f : A -> M B) :
  bind (lift (Raise e)) f = ([], Raise e).
Proof. reflexivity. Qed.

End MonadLaws.


(* ===================================================================== *)
(** ** Dictionaries as association lists *)
(* ===================================================================== *)

Section Dict.

Context {V : Type}.
Implicit Types (d : list (string * V)) (k : string) (v : V).

Lemma mem_In k l : mem k l = true <-> In k l.
Proof.
  unfold mem. rewrite existsb_exists. split.
  - intros [x [Hx He]]. apply String.eqb_eq in He. now subst.
  - intros H. exists k. split; [assumption | apply String.eqb_refl].
Qed.

Lemma mem_false k l : mem k l = false <-> ~ In k l.
Proof.
  rewrite <- mem_In. destruct (mem k l); split; congruence.
Qed.

Lemma lookup_None_keys k d : Py.lookup k d = None <-> ~ In k (Py.keys d).
Proof.
  induction d as [|[k' v'] r IH]; simpl.
  - tauto.
  - destruct (String.eqb k' k) eqn:E.
    + apply String.eqb_eq in E. subst. split; [discriminate | tauto].
    + apply String.eqb_neq in E. rewrite IH. tauto.
Qed.

Lemma lookup_Some_keys k d v : Py.lookup k d = Some v -> In k (Py.keys d).
Proof.
  intros H. destruct (in_dec string_dec k (Py.keys d)) as [|n]; [assumption|].
  apply lookup_None_keys in n. congruence.
Qed.

Lemma lookup_Some_In k d v : Py.lookup k d = Some v -> In (k, v) d.
Proof.
  induction d as [|[k' v'] r IH]; simpl; [discriminate|].
  destruct (String.eqb k' k) eqn:E.
  - apply String.eqb_eq in E. intros [= ->]. subst. now left.
  - intros H. right. now apply IH.
Qed.

Lemma In_lookup_NoDup k v d :
  NoDup (Py.keys d) -> In (k, v) d -> Py.lookup k d = Some v.
Proof.
  induction d as [|[k' v'] r IH]; simpl; [tauto|].
  intros Hnd [H|H].
  - injection H as -> ->. now rewrite String.eqb_refl.
  - inversion Hnd as [|? ? Hni Hnd']; subst.
    destruct (String.eqb k' k) eqn:E.
    + apply String.eqb_eq in E. subst. exfalso. apply Hni.
      change (In (fst (k, v)) (map fst r)). now apply in_map.
    + now apply IH.
Qed.

Lemma lookup_setitem_same d k v : Py.lookup k (Py.setitem d k v) = Some v.
Proof.
  induction d as [|[k' v'] r IH]; simpl.
  - now rewrite String.eqb_refl.
  - destruct (String.eqb k' k) eqn:E; simpl; rewrite E; [reflexivity | exact IH].
Qed.

Lemma lookup_setitem_other d k k' v :
  k <> k' -> Py.lookup k' (Py.setitem d k v) = Py.lookup k' d.
Proof.
  intros Hne. induction d as [|[k0 v0] r IH]; simpl.
  - apply String.eqb_neq in Hne. now rewrite Hne.
  - destruct (String.eqb k0 k) eqn:E; simpl.
    + apply String.eqb_eq in E. subst k0.
      apply String.eqb_neq in Hne. now rewrite Hne.
    + now rewrite IH.
Qed.

Lemma keys_setitem d k v :
  Py.keys (Py.setitem d k v) =
  if mem k (Py.keys d) then Py.keys d else Py.keys d ++ [k].
Proof.
  induction d as [|[k' v'] r IH]; simpl; [reflexivity|].
  rewrite (String.eqb_sym k k').
  destruct (String.eqb k' k) eqn:E; simpl; [reflexivity|].
  rewrite IH. unfold Py.keys. now destruct (mem k (map fst r)).
Qed.

End Dict.

(* ===================================================================== *)
(** ** One turn of the loop *)
(* ===================================================================== *)

(** Unfold a turn of the loop down to the operators applied to the values,
    then split on the value that decides the next branch. *)
Ltac run :=
  unfold resolve_var, check_is_file, emit, lift, ret, bind, outcome, trace;
  simpl.

Ltac split_match :=
  match goal with
  | |- context [match ?x with _ => _ end] =>
      lazymatch x with
      | context [match _ with _ => _ end] => fail
      | _ => destruct x eqn:?; simpl
      end
  end.

Section Resolution.

Variable w : World.
Variable obs_data_loc_ : option string.
Variable _defaults_file : string.

Lemma resolve_var_outcome (vd : yaml) (d : obs_dict) (var : string) :
  outcome (resolve_var w obs_data_loc_ _defaults_file vd d var) =
  match verdict w obs_data_loc_ _defaults_file vd var with
  | Ok (Some r) => Ok (Py.setitem d var r)
  | Ok None => Ok d
  | Raise e => Raise e
  end.
Proof.
  unfold verdict. run.
  repeat (split_match; try reflexivity; try discriminate).
Qed.

(** The events of a turn do not depend on the dictionary. *)
Lemma resolve_var_trace (vd : yaml) (d : obs_dict) (var : string) :
  trace (resolve_var w obs_data_loc_ _defaults_file vd d var) =
  trace (resolve_var w obs_data_loc_ _defaults_file vd [] var).
Proof.
  run. repeat (split_match; try reflexivity; try discriminate).
Qed.

(** A turn on a variable whose entry is a mapping with a string under
    ["obs_file"]: the complete behaviour. *)
Lemma resolve_var_record (C m : list (string * yaml)) (s var : string)
    (d : obs_dict) :
  Py.lookup var C = Some (YMap m) ->
  Py.lookup "obs_file" m = Some (YStr s) ->
  resolve_var w obs_data_loc_ _defaults_file (YMap C) d var =
  let p := PosixPath.of_string s in
  match is_file w p with
  | Raise e => ([IsFile p], Raise e)
  | Ok true => ([IsFile p], Ok (Py.setitem d var (record_for m var p)))
  | Ok false =>
      match fallback obs_data_loc_ with
      | Some F =>
          match is_file w (F // p) with
          | Raise e => ([IsFile p; IsFile (F // p)], Raise e)
          | Ok true =>
              ([IsFile p; IsFile (F // p)],
               Ok (Py.setitem d var (record_for m var (F // p))))
          | Ok false =>
              ([IsFile p; IsFile (F // p); DebugLog (msg_not_found s var)], Ok d)
          end
      | None => ([IsFile p; DebugLog (msg_not_found s var)], Ok d)
      end
  end.
Proof.
  intros HC Hm. unfold fallback, record_for. run. rewrite HC. simpl.
  rewrite Hm. simpl.
  destruct (is_file w (PosixPath.of_string s)) as [[|]|e] eqn:E1; simpl;
    try reflexivity.
  - destruct (Py.lookup "obs_name" m), (Py.lookup "obs_var_name" m); reflexivity.
  - destruct obs_data_loc_ as [loc|]; simpl; [|reflexivity].
    destruct (Str.nonempty loc); simpl; [|reflexivity].
    destruct (is_file w (PosixPath.of_string loc // PosixPath.of_string s))
      as [[|]|e]; simpl; try reflexivity.
    destruct (Py.lookup "obs_name" m), (Py.lookup "obs_var_name" m); reflexivity.
Qed.

End Resolution.

(* ===================================================================== *)
(** ** The loop and the constructor as a whole *)
(* ===================================================================== *)

Lemma dedup_In (l : list string) (x : string) : In x (dedup l) <-> In x l.
Proof.
  induction l as [|a r IH]; simpl; [tauto|].
  rewrite filter_In, IH, negb_true_iff, String.eqb_neq.
  destruct (string_dec a x); intuition congruence.
Qed.

Lemma NoDup_filter {A : Type} (p : A -> bool) (l : list A) :
  NoDup l -> NoDup (filter p l).
Proof.
  induction 1 as [|x l Hni Hnd IH]; simpl; [constructor|].
  destruct (p x); [constructor|]; try assumption.
  rewrite filter_In. tauto.
Qed.

Lemma dedup_NoDup (l : list string) : NoDup (dedup l).
Proof.
  induction l as [|a r IH]; simpl; constructor.
  - rewrite filter_In, String.eqb_refl. simpl. intros [_ H]. discriminate.
  - now apply NoDup_filter.
Qed.

Lemma filter_comm {A : Type} (p q : A -> bool) (l : list A) :
  filter p (filter q l) = filter q (filter p l).
Proof.
  induction l as [|a r IH]; simpl; [reflexivity|].
  destruct (p a) eqn:P, (q a) eqn:Q; simpl; rewrite ?P, ?Q, IH; reflexivity.
Qed.

Lemma filter_and {A : Type} (p q : A -> bool) (l : list A) :
  filter p (filter q l) = filter (fun x => q x && p x) l.
Proof.
  induction l as [|a r IH]; simpl; [reflexivity|].
  destruct (q a) eqn:Q; simpl; [destruct (p a)|]; now rewrite IH.
Qed.

Lemma dedup_filter (p : string -> bool) (l : list string) :
  dedup (filter p l) = filter p (dedup l).
Proof.
  induction l as [|a r IH]; simpl; [reflexivity|].
  destruct (p a) eqn:P; simpl; rewrite IH.
  - f_equal. apply filter_comm.
  - rewrite filter_and. apply filter_ext_in. intros y _.
    destruct (String.eqb y a) eqn:E; simpl; [|reflexivity].
    apply String.eqb_eq in E. now subst.
Qed.

Section Loop.

Variable w : World.
Variable obs_data_loc_ : option string.
Variable _defaults_file : string.
Variable vd : yaml.

#[local] Abbreviation body := (resolve_var w obs_data_loc_ _defaults_file vd).
#[local] Abbreviation verdict_ := (verdict w obs_data_loc_ _defaults_file vd).
#[local] Abbreviation store := (store_verdict w obs_data_loc_ _defaults_file vd).
#[local] Abbreviation passes_ := (passes w obs_data_loc_ _defaults_file vd).
#[local] Abbreviation accepted_ := (accepted w obs_data_loc_ _defaults_file vd).

Lemma for_each_Ok (L : list string) (d : obs_dict) :
  forallb passes_ L = true ->
  outcome (for_each body L d) = Ok (fold_left store L d).
Proof.
  revert d. induction L as [|v r IH]; intros d H; simpl in *; [reflexivity|].
  apply andb_true_iff in H as [Hv Hr].
  rewrite outcome_bind, resolve_var_outcome.
  unfold store_verdict at 2. unfold passes in Hv.
  destruct (verdict_ v) as [[x|]|e]; try discriminate; now apply IH.
Qed.

Lemma for_each_Ok_inv (L : list string) (d d' : obs_dict) :
  outcome (for_each body L d) = Ok d' ->
  forallb passes_ L = true /\ d' = fold_left store L d.
Proof.
  revert d. induction L as [|v r IH]; intros d; simpl.
  - intros [= <-]. now split.
  - rewrite outcome_bind, resolve_var_outcome.
    unfold store_verdict at 2, passes at 1.
    destruct (verdict_ v) as [[x|]|e];
      try discriminate; intros H; apply IH in H; simpl; exact H.
Qed.

(** When a turn raises, the loop ends with the exception of the first
    turn that does. *)
Lemma for_each_Raise (L : list string) (d : obs_dict) :
  forallb passes_ L = false ->
  exists v e, In v L /\ verdict_ v = Raise e /\
              outcome (for_each body L d) = Raise e.
Proof.
  revert d. induction L as [|v r IH]; intros d; simpl; [discriminate|].
  rewrite outcome_bind, resolve_var_outcome. unfold passes at 1.
  destruct (verdict_ v) as [[x|]|e] eqn:E; simpl.
  - intros H. destruct (IH (Py.setitem d v x) H) as (v' & e & Hin & Hv & Ho).
    exists v', e. auto.
  - intros H. destruct (IH d H) as (v' & e & Hin & Hv & Ho).
    exists v', e. auto.
  - intros _. exists v, e. auto.
Qed.

(** The loop ends with the exception of the first turn that raises. *)
Lemma for_each_first_raise (pre post : list string) (v : string)
    (d : obs_dict) (e : exn) :
  forallb passes_ pre = true ->
  verdict_ v = Raise e ->
  outcome (for_each body (pre ++ v :: post) d) = Raise e.
Proof.
  revert d. induction pre as [|a r IH]; intros d Hp Hv; simpl in *.
  - now rewrite outcome_bind, resolve_var_outcome, Hv.
  - apply andb_true_iff in Hp as [Ha Hr]. unfold passes in Ha.
    rewrite outcome_bind, resolve_var_outcome.
    destruct (verdict_ a) as [[x|]|x]; try discriminate; now apply IH.
Qed.

(** A list with a turn that raises gives no dictionary. *)
Lemma for_each_some_raise (L : list string) (v : string) (d : obs_dict) :
  In v L ->
  passes_ v = false ->
  exists v' e, In v' L /\ verdict_ v' = Raise e /\
               outcome (for_each body L d) = Raise e.
Proof.
  intros Hin Hp. apply for_each_Raise.
  apply not_true_is_false. intros Hall. rewrite forallb_forall in Hall.
  rewrite (Hall v Hin) in Hp. discriminate.
Qed.

Lemma keys_fold_store (L : list string) (d : obs_dict) :
  Py.keys (fold_left store L d) =
  Py.keys d ++
  filter (fun v => negb (mem v (Py.keys d))) (dedup (filter accepted_ L)).
Proof.
  revert d. induction L as [|v r IH]; intros d; simpl.
  - now rewrite app_nil_r.
  - rewrite IH.
    assert (Ha : accepted_ v =
                 match verdict_ v with Ok (Some _) => true | _ => false end)
      by reflexivity.
    rewrite Ha. clear Ha. unfold store_verdict.
    destruct (verdict_ v) as [[x|]|e]; try reflexivity.
    simpl. rewrite keys_setitem. destruct (mem v (Py.keys d)) eqn:E; simpl.
    + f_equal. rewrite filter_and. apply filter_ext_in. intros y _.
      destruct (String.eqb y v) eqn:Ey; simpl; [|reflexivity].
      apply String.eqb_eq in Ey. subst. now rewrite E.
    + rewrite <- app_assoc. simpl. do 2 f_equal.
      rewrite filter_and. apply filter_ext_in. intros y _.
      unfold mem. rewrite existsb_app. simpl. rewrite orb_false_r.
      rewrite negb_orb. apply andb_comm.
Qed.

Lemma lookup_fold_store (L : list string) (d : obs_dict) (v : string) :
  Py.lookup v (fold_left store L d) =
  if mem v L then
    match verdict_ v with
    | Ok (Some r) => Some r
    | _ => Py.lookup v d
    end
  else Py.lookup v d.
Proof.
  revert d. induction L as [|a r IH]; intros d; simpl; [reflexivity|].
  rewrite IH. unfold store_verdict.
  destruct (String.eqb v a) eqn:E; simpl.
  - apply String.eqb_eq in E. subst a.
    destruct (verdict_ v) as [[x|]|e];
      rewrite ?lookup_setitem_same; destruct (mem v r); reflexivity.
  - apply String.eqb_neq in E.
    destruct (verdict_ a) as [[x|]|e];
      rewrite ?lookup_setitem_other by congruence; reflexivity.
Qed.

End Loop.

Lemma contains_Raise (k : string) (c : yaml) (e : exn) :
  Py.contains k c = Raise e -> e = TypeError.
Proof. destruct c; simpl; congruence. Qed.

Lemma getitem_Raise (k : string) (c : yaml) (e : exn) :
  Py.contains k c = Ok true -> Py.getitem c k = Raise e -> e = TypeError.
Proof.
  destruct c; simpl; try congruence.
  destruct (Py.lookup k m); congruence.
Qed.

Lemma fspath_Raise (y : yaml) (e : exn) : Py.fspath y = Raise e -> e = TypeError.
Proof. destruct y; simpl; congruence. Qed.

Section VerdictFacts.

Variable w : World.
Variable obs_data_loc_ : option string.
Variable _defaults_file : string.

Lemma verdict_record (C m : list (string * yaml)) (s var : string) :
  Py.lookup var C = Some (YMap m) ->
  Py.lookup "obs_file" m = Some (YStr s) ->
  verdict w obs_data_loc_ _defaults_file (YMap C) var =
  result_map (option_map (record_for m var))
    (first_existing w (candidates obs_data_loc_ (PosixPath.of_string s))).
Proof.
  intros HC Hm. unfold verdict, candidates.
  rewrite (resolve_var_record w obs_data_loc_ _defaults_file C m s var [] HC Hm).
  simpl.
  destruct (is_file w (PosixPath.of_string s)) as [[|]|e]; simpl;
    try reflexivity.
  destruct (fallback obs_data_loc_) as [F|]; simpl; [|reflexivity].
  destruct (is_file w (F // PosixPath.of_string s)) as [[|]|e]; reflexivity.
Qed.

(** Only an entry that is a mapping with a string under ["obs_file"] can be
    given a record. *)
Lemma verdict_Some_inv (vd : yaml) (var : string) (r : ObsRecord) :
  verdict w obs_data_loc_ _defaults_file vd var = Ok (Some r) ->
  exists C m s,
    vd = YMap C /\ Py.lookup var C = Some (YMap m) /\
    Py.lookup "obs_file" m = Some (YStr s).
Proof.
  unfold verdict, resolve_var, lift, ret, emit, bind, outcome. simpl.
  destruct vd as [| | | s0 | l | C]; simpl; try discriminate.
  - destruct (Str.contains var s0); discriminate.
  - destruct (existsb (Py.is_str var) l); discriminate.
  - destruct (Py.lookup var C) as [e|] eqn:HC; simpl; [|discriminate].
    destruct e as [| | | s0 | l | m]; simpl; try discriminate.
    + destruct (Str.contains "obs_file" s0); discriminate.
    + destruct (existsb (Py.is_str "obs_file") l); discriminate.
    + destruct (Py.lookup "obs_file" m) as [g|] eqn:Hm; simpl; [|discriminate].
      destruct g as [| | | s | |]; simpl; try discriminate.
      intros _. now exists C, m, s.
Qed.

(** An exception raised by a turn is a [TypeError], or the exception of a
    file test. *)
Lemma verdict_Raise_inv (vd : yaml) (var : string) (e : exn) :
  verdict w obs_data_loc_ _defaults_file vd var = Raise e ->
  e = TypeError \/ exists p, is_file w p = Raise e.
Proof.
  unfold verdict. run.
  repeat (split_match; try discriminate; try congruence);
    intros [= <-];
    eauto using contains_Raise, getitem_Raise, fspath_Raise.
Qed.

End VerdictFacts.

(* ===================================================================== *)
(** ** What an observer of the events sees *)
(* ===================================================================== *)


Lemma file_checks_app (t u : list event) :
  file_checks (t ++ u) = file_checks t ++ file_checks u.
Proof. apply flat_map_app. Qed.

Section Observations.

Variable w : World.



(** The constructor when [compare_obs] is false: it stops before the
    resolution. *)
Lemma init_no_compare (bi : BasicInfo) (L : list string) :
  compare_obs bi = false ->
  init w (mkConfig (Some bi) (Some L)) =
  if use_defaults bi then
    let f := defaults_file w (custom_defaults bi) in
    match yaml_load w f with
    | Ok vd => ([OpenYaml f], Ok (mkAdfObs true vd L false []))
    | Raise e => ([OpenYaml f], Raise e)
    end
  else ([], Ok (mkAdfObs false (YMap []) L false [])).
Proof.
  intros Hc. unfold init, open_yaml, read_config_var_required, emit, lift, ret, bind.
  simpl. rewrite Hc. simpl.
  destruct (use_defaults bi); simpl; [|reflexivity].
  destruct (yaml_load w (defaults_file w (custom_defaults bi))); reflexivity.
Qed.

(** The constructor when [compare_obs] is true: the variables are resolved
    against the content of the defaults file, whether or not that content
    was kept as the instance's own defaults. *)
Lemma init_compare_outcome (bi : BasicInfo) (L : list string) :
  compare_obs bi = true ->
  outcome (init w (mkConfig (Some bi) (Some L))) =
  let f := defaults_file w (custom_defaults bi) in
  match yaml_load w f with
  | Ok vd =>
      match outcome (for_each (resolve_var w (obs_data_loc bi) f vd) L []) with
      | Ok d =>
          Ok (mkAdfObs (use_defaults bi)
                (if use_defaults bi then vd else YMap []) L true d)
      | Raise e => Raise e
      end
  | Raise e => Raise e
  end.
Proof.
  intros Hc.
  unfold init, open_yaml, read_config_var_required, emit, lift, ret, bind, outcome.
  simpl. rewrite Hc. simpl.
  destruct (use_defaults bi) eqn:Hu; simpl;
    destruct (yaml_load w (defaults_file w (custom_defaults bi))) as [vd|e] eqn:Hl;
    simpl; try reflexivity.
  - destruct (Py.truthy vd); simpl; rewrite ?Hl; simpl;
      destruct (for_each _ L []) as [t [d|e]]; simpl; try reflexivity;
      destruct (is_empty d); reflexivity.
  - destruct (for_each _ L []) as [t [d|e]]; simpl; try reflexivity;
      destruct (is_empty d); reflexivity.
Qed.

End Observations.

(* ===================================================================== *)
(** ** The constructor: what a finished instance tells about its run *)
(* ===================================================================== *)

Section Instance.

Variable w : World.

Lemma init_Ok_config (cfg : Config) (o : AdfObs) :
  outcome (init w cfg) = Ok o ->
  exists bi L, cfg = mkConfig (Some bi) (Some L).
Proof.
  destruct cfg as [[bi|] [L|]]; intros H.
  - now exists bi, L.
  - exfalso. revert H.
    unfold init, open_yaml, read_config_var_required, emit, lift, ret, bind, outcome.
    simpl. destruct (use_defaults bi); simpl; [|discriminate].
    destruct (yaml_load w (defaults_file w (custom_defaults bi))); discriminate.
  - discriminate.
  - discriminate.
Qed.

(** A finished instance of a model-vs-obs run: every turn of the loop
    passed, and the dictionary is the one the verdicts build. *)
Lemma init_Ok_compare (bi : BasicInfo) (L : list string) (o : AdfObs) :
  compare_obs bi = true ->
  outcome (init w (mkConfig (Some bi) (Some L))) = Ok o ->
  let f := defaults_file w (custom_defaults bi) in
  exists vd,
    yaml_load w f = Ok vd /\
    forallb (passes w (obs_data_loc bi) f vd) L = true /\
    var_obs_dict o = fold_left (store_verdict w (obs_data_loc bi) f vd) L [] /\
    diag_var_list_of o = L /\ compare_obs_of o = true /\
    use_defaults_of o = use_defaults bi /\
    variable_defaults o = (if use_defaults bi then vd else YMap []).
Proof.
  intros Hc H. rewrite (init_compare_outcome w bi L Hc) in H. simpl in *.
  destruct (yaml_load w (defaults_file w (custom_defaults bi))) as [vd|e];
    [|discriminate].
  destruct (outcome (for_each _ L [])) as [d|e] eqn:E; [|discriminate].
  apply for_each_Ok_inv in E as [Hp Hd]. injection H as <-.
  exists vd. unfold var_obs_dict, diag_var_list_of, compare_obs_of,
    use_defaults_of, variable_defaults. simpl. repeat split; auto.
Qed.

End Instance.

(* ===================================================================== *)
(** ** Defaults switched off, and runs without observations *)
(* ===================================================================== *)

(** C1, as the specification has it, fails: with [use_defaults] false and
    [compare_obs] true the constructor reads the defaults file for its own
    use (lines 108-116) and resolves the variables against it.  Here the
    bundled file lists ["TS"] with a file that exists, and the dictionary of
    the finished instance is not empty, while the defaults it exposes are. *)
Lemma C1_counterexample :
  outcome (init Scenario.w1 (Scenario.cfg false true None ["TS"; "PRECT"])) =
  Ok (mkAdfObs false (YMap []) ["TS"; "PRECT"] true
        [("TS", mkObsRecord (PosixPath.mkPath "/" ["obs"; "TS.nc"])
                            (YStr "TS.nc") (YStr "TS"))]).
Proof. reflexivity. Qed.

(** C1, amended: with [use_defaults] false the defaults exposed by a finished
    instance are the empty mapping; when [compare_obs] is false as well the
    constructor completes, without touching the outside world, with an empty
    observations dictionary; when [compare_obs] is true the outcome, as far
    as the observations dictionary and a raised exception go, is the one of
    the same run with [use_defaults] true. *)
Theorem C1_use_defaults_false (w : World) (bi : BasicInfo) (L : list string) :
  use_defaults bi = false ->
  let cfg := mkConfig (Some bi) (Some L) in
  (forall o, outcome (init w cfg) = Ok o -> variable_defaults o = YMap []) /\
  (compare_obs bi = false ->
   init w cfg = ([], Ok (mkAdfObs false (YMap []) L false []))) /\
  (compare_obs bi = true ->
   result_map var_obs_dict (outcome (init w cfg)) =
   result_map var_obs_dict
     (outcome (init w (mkConfig (Some (with_use_defaults true bi)) (Some L))))).
Proof.
  intros Hu cfg. subst cfg. repeat split.
  - intros o H. destruct (compare_obs bi) eqn:Hc.
    + apply (init_Ok_compare w bi L o Hc) in H.
      destruct H as (vd & _ & _ & _ & _ & _ & _ & Hv). now rewrite Hu in Hv.
    + rewrite (init_no_compare w bi L Hc), Hu in H. now injection H as <-.
  - intros Hc. now rewrite (init_no_compare w bi L Hc), Hu.
  - intros Hc. rewrite (init_compare_outcome w bi L Hc).
    rewrite (init_compare_outcome w (with_use_defaults true bi) L Hc). simpl.
    destruct (yaml_load w (defaults_file w (custom_defaults bi))) as [vd|e];
      [|reflexivity].
    destruct (outcome (for_each _ L [])); reflexivity.
Qed.

Lemma C1_use_defaults_false_witness :
  use_defaults (mkBasicInfo false None true None) = false /\
  result_map var_obs_dict
    (outcome (init Scenario.w1 (Scenario.cfg false true None ["TS"; "PRECT"]))) =
  result_map var_obs_dict
    (outcome (init Scenario.w1 (Scenario.cfg true true None ["TS"; "PRECT"]))).
Proof.
  split; [reflexivity|].
  exact (proj2 (proj2 (C1_use_defaults_false Scenario.w1
                         (mkBasicInfo false None true None) ["TS"; "PRECT"]
                         eq_refl)) eq_refl).
Defined.

(** C8: when [compare_obs] is false the constructor tests the existence of
    no file, a finished instance has an empty observations dictionary, and
    the constructor does finish whenever the variable list is present and
    the defaults, if they are to be used, can be read. *)
Theorem C8_compare_obs_false (w : World) (cfg : Config) (bi : BasicInfo) :
  diag_basic_info cfg = Some bi ->
  compare_obs bi = false ->
  file_checks (trace (init w cfg)) = [] /\
  (forall o, outcome (init w cfg) = Ok o -> var_obs_dict o = []) /\
  (forall L, diag_var_list cfg = Some L ->
     (use_defaults bi = false \/
      exists vd, yaml_load w (defaults_file w (custom_defaults bi)) = Ok vd) ->
     exists o, outcome (init w cfg) = Ok o /\ diag_var_list_of o = L).
Proof.
  intros Hb Hc. destruct cfg as [b [L|]]; simpl in Hb; subst b.
  - rewrite (init_no_compare w bi L Hc). repeat split.
    + destruct (use_defaults bi); [|reflexivity]. simpl.
      destruct (yaml_load w _); reflexivity.
    + intros o. destruct (use_defaults bi); simpl.
      * destruct (yaml_load w _); [|discriminate]. now intros [= <-].
      * now intros [= <-].
    + intros L' [= <-] [Hu | [vd Hl]].
      * rewrite Hu. eexists. split; reflexivity.
      * simpl. rewrite Hl. destruct (use_defaults bi); eexists; split; reflexivity.
  - assert (H : init w (mkConfig (Some bi) None) =
                if use_defaults bi then
                  match yaml_load w (defaults_file w (custom_defaults bi)) with
                  | Ok _ => ([OpenYaml (defaults_file w (custom_defaults bi))],
                             Raise AdfError)
                  | Raise e => ([OpenYaml (defaults_file w (custom_defaults bi))],
                                Raise e)
                  end
                else ([], Raise AdfError)).
    { unfold init, open_yaml, read_config_var_required, emit, lift, ret, bind.
      simpl. destruct (use_defaults bi); simpl; [|reflexivity].
      destruct (yaml_load w _); reflexivity. }
    rewrite H. repeat split.
    + destruct (use_defaults bi); [|reflexivity].
      destruct (yaml_load w _); reflexivity.
    + intros o. destruct (use_defaults bi); [|discriminate].
      destruct (yaml_load w _); discriminate.
    + discriminate.
Qed.

Lemma C8_compare_obs_false_witness :
  file_checks (trace (init Scenario.w1 (Scenario.cfg true false (Some "/obs") ["TS"]))) = [] /\
  exists o,
    outcome (init Scenario.w1 (Scenario.cfg true false (Some "/obs") ["TS"])) = Ok o /\
    var_obs_dict o = [].
Proof.
  destruct (C8_compare_obs_false Scenario.w1
              (Scenario.cfg true false (Some "/obs") ["TS"])
              (mkBasicInfo true None false (Some "/obs")) eq_refl eq_refl)
    as (Hf & He & Hd).
  split; [exact Hf|].
  destruct (Hd ["TS"] eq_refl (or_intror (ex_intro _ Scenario.C_TS eq_refl)))
    as (o & Ho & _).
  exists o. split; [exact Ho | exact (He o Ho)].
Defined.

(* ===================================================================== *)
(** ** The warning *)
(* ===================================================================== *)

Section Warning.

Variable w : World.



End Warning.

Section Notices.

Variable w : World.

Lemma logged_app (t u : list event) : logged (t ++ u) = logged t ++ logged u.
Proof. apply flat_map_app. Qed.







End Notices.

Section NothingFound.

Variable w : World.




End NothingFound.



(* ===================================================================== *)
(** ** The observations dictionary of a finished instance *)
(* ===================================================================== *)

Section Catalog.

Variable w : World.

Lemma filter_none {A : Type} (l : list A) : filter (fun _ => false) l = [].
Proof. induction l; simpl; auto. Qed.

Lemma filter_all {A : Type} (l : list A) : filter (fun _ => true) l = l.
Proof. induction l; simpl; congruence. Qed.

(** The keys are the accepted variables, at their first occurrences. *)
Lemma catalog_keys (bi : BasicInfo) (L : list string) (o : AdfObs) :
  compare_obs bi = true ->
  outcome (init w (mkConfig (Some bi) (Some L))) = Ok o ->
  let f := defaults_file w (custom_defaults bi) in
  exists vd,
    yaml_load w f = Ok vd /\
    Py.keys (var_obs_dict o) = filter (accepted w (obs_data_loc bi) f vd) (dedup L).
Proof.
  intros Hc H f. destruct (init_Ok_compare w bi L o Hc H)
    as (vd & Hl & _ & Hd & _).
  exists vd. split; [exact Hl|].
  rewrite Hd, keys_fold_store. simpl.
  rewrite filter_all. apply dedup_filter.
Qed.

(** Every entry comes from a variable of the list whose defaults are a
    mapping with a string under ["obs_file"], and holds the record made for
    the first candidate that exists. *)
Lemma catalog_entry (bi : BasicInfo) (L : list string) (o : AdfObs)
    (v : string) (r : ObsRecord) :
  outcome (init w (mkConfig (Some bi) (Some L))) = Ok o ->
  Py.lookup v (var_obs_dict o) = Some r ->
  compare_obs bi = true /\ In v L /\
  exists C m s q,
    yaml_load w (defaults_file w (custom_defaults bi)) = Ok (YMap C) /\
    Py.lookup v C = Some (YMap m) /\
    Py.lookup "obs_file" m = Some (YStr s) /\
    first_existing w (candidates (obs_data_loc bi) (PosixPath.of_string s)) =
      Ok (Some q) /\
    r = record_for m v q.
Proof.
  intros H Hr. destruct (compare_obs bi) eqn:Hc.
  - destruct (init_Ok_compare w bi L o Hc H) as (vd & Hl & _ & Hd & _).
    rewrite Hd, lookup_fold_store in Hr. simpl in Hr.
    destruct (mem v L) eqn:Hm; [|discriminate].
    destruct (verdict w (obs_data_loc bi) _ vd v) as [[x|]|e] eqn:Hv;
      try discriminate.
    injection Hr as ->.
    destruct (verdict_Some_inv _ _ _ _ _ _ Hv) as (C & m & s & -> & HC & Hs).
    rewrite (verdict_record _ _ _ _ _ _ _ HC Hs) in Hv.
    destruct (first_existing _ _) as [[q|]|e] eqn:Hq; try discriminate.
    injection Hv as <-.
    split; [reflexivity|]. split; [now apply mem_In|].
    now exists C, m, s, q.
  - rewrite (init_no_compare w bi L Hc) in H.
    destruct (use_defaults bi); simpl in H.
    + destruct (yaml_load w _); [|discriminate]. injection H as <-. discriminate.
    + injection H as <-. discriminate.
Qed.

Lemma catalog_NoDup (cfg : Config) (o : AdfObs) :
  outcome (init w cfg) = Ok o -> NoDup (Py.keys (var_obs_dict o)).
Proof.
  intros H. destruct (init_Ok_config w cfg o H) as (bi & L & ->).
  destruct (compare_obs bi) eqn:Hc.
  - destruct (catalog_keys bi L o Hc H) as (vd & _ & ->).
    apply NoDup_filter, dedup_NoDup.
  - rewrite (init_no_compare w bi L Hc) in H.
    destruct (use_defaults bi); simpl in H.
    + destruct (yaml_load w _); [|discriminate]. injection H as <-. constructor.
    + injection H as <-. constructor.
Qed.

End Catalog.

(** C5: the keys of the observations dictionary of a finished instance are
    variables of the requested list, no key occurs twice, and they stand in
    the order in which the variables first occur in the list: the keys are
    the list of first occurrences, thinned to the variables that are keys. *)
Theorem C5_catalog_keys (w : World) (cfg : Config) (o : AdfObs) :
  outcome (init w cfg) = Ok o ->
  let K := Py.keys (var_obs_dict o) in
  let L := diag_var_list_of o in
  diag_var_list cfg = Some L /\
  incl K L /\
  NoDup K /\
  K = filter (fun v => mem v K) (dedup L).
Proof.
  intros H K L.
  assert (Hnd : NoDup K) by exact (catalog_NoDup w cfg o H).
  destruct (init_Ok_config w cfg o H) as (bi & L' & ->).
  destruct (compare_obs bi) eqn:Hc.
  - destruct (catalog_keys w bi L' o Hc H) as (vd & Hl & HK).
    destruct (init_Ok_compare w bi L' o Hc H) as (_ & _ & _ & _ & HL & _).
    fold L in HL. fold K in HK. subst L'.
    assert (Hin : forall v, In v K <-> In v (dedup L) /\
                  accepted w (obs_data_loc bi)
                    (defaults_file w (custom_defaults bi)) vd v = true).
    { intros v. rewrite HK. apply filter_In. }
    repeat split; auto.
    + intros v Hv. apply Hin in Hv as [Hv _]. now apply dedup_In.
    + rewrite HK at 1. apply filter_ext_in. intros v Hv.
      destruct (mem v K) eqn:E.
      * apply mem_In, Hin in E. tauto.
      * apply mem_false in E. rewrite Hin in E.
        destruct (accepted _ _ _ _ v); [tauto | reflexivity].
  - rewrite (init_no_compare w bi L' Hc) in H.
    assert (Ho : var_obs_dict o = [] /\ diag_var_list_of o = L').
    { destruct (use_defaults bi); simpl in H.
      - destruct (yaml_load w _); [|discriminate]. injection H as <-. now split.
      - injection H as <-. now split. }
    destruct Ho as [Hd HL]. subst K L. rewrite Hd, HL. simpl.
    repeat split; auto.
    + intros x [].
    + constructor.
    + symmetry. apply filter_none.
Qed.

Lemma C5_catalog_keys_witness :
  Py.keys [("TS", mkObsRecord (PosixPath.mkPath "/" ["obs"; "TS.nc"])
                              (YStr "TS.nc") (YStr "TS"))] =
  filter (fun v => mem v ["TS"]) (dedup ["PRECT"; "TS"; "PRECT"; "TS"]).
Proof.
  exact (proj2 (proj2 (proj2
    (C5_catalog_keys Scenario.w1
       (Scenario.cfg true true None ["PRECT"; "TS"; "PRECT"; "TS"])
       (mkAdfObs true Scenario.C_TS ["PRECT"; "TS"; "PRECT"; "TS"] true
          [("TS", mkObsRecord (PosixPath.mkPath "/" ["obs"; "TS.nc"])
                              (YStr "TS.nc") (YStr "TS"))])
       eq_refl)))).
Defined.

(* ===================================================================== *)
(** ** Where the file is looked for, and what is stored *)
(* ===================================================================== *)

Lemma joinpath_absolute (F p : PosixPath.Path) :
  PosixPath.is_absolute p = true -> F // p = p.
Proof.
  unfold PosixPath.is_absolute, PosixPath.joinpath. now intros ->.
Qed.

Lemma joinpath_relative (F p : PosixPath.Path) :
  PosixPath.is_absolute p = false ->
  F // p = PosixPath.mkPath (PosixPath.root F) (PosixPath.tail F ++ PosixPath.tail p).
Proof.
  unfold PosixPath.is_absolute, PosixPath.joinpath. now intros ->.
Qed.

Lemma is_absolute_joinpath (F p : PosixPath.Path) :
  PosixPath.is_absolute (F // p) =
  PosixPath.is_absolute p || PosixPath.is_absolute F.
Proof.
  unfold PosixPath.is_absolute, PosixPath.joinpath.
  destruct (Str.nonempty (PosixPath.root p)) eqn:E; simpl; auto.
Qed.

(** A path made from a text is absolute exactly when the text starts with a
    slash. *)
Lemma prefix_empty (s : string) : String.prefix "" s = true.
Proof. destruct s; reflexivity. Qed.

Lemma is_absolute_of_string (s : string) :
  PosixPath.is_absolute (PosixPath.of_string s) = String.prefix "/" s.
Proof.
  unfold PosixPath.is_absolute, PosixPath.of_string, PosixPath.splitroot.
  destruct s as [|c1 r1]; [reflexivity|].
  cbn [String.prefix].
  destruct (Ascii.eqb c1 PosixPath.slash) eqn:E1.
  - apply Ascii.eqb_eq in E1. subst c1.
    destruct (Ascii.ascii_dec "/" PosixPath.slash) as [_|n];
      [|exfalso; now apply n].
    rewrite prefix_empty.
    destruct r1 as [|c2 r2]; [reflexivity|].
    destruct (Ascii.eqb c2 PosixPath.slash); [|reflexivity].
    destruct r2 as [|c3 r3]; [reflexivity|].
    destruct (Ascii.eqb c3 PosixPath.slash); reflexivity.
  - apply Ascii.eqb_neq in E1.
    destruct (Ascii.ascii_dec "/" c1) as [e|_]; [|reflexivity].
    exfalso. apply E1. now rewrite <- e.
Qed.

Lemma until_candidates (w : World) (loc : option string) (p : PosixPath.Path) :
  until (stops w) (candidates loc p) =
  match is_file w p with
  | Ok false => candidates loc p
  | _ => [p]
  end.
Proof.
  unfold candidates, stops. simpl.
  destruct (is_file w p) as [[|]|e]; try reflexivity.
  destruct (fallback loc) as [F|]; [|reflexivity].
  simpl. destruct (is_file w (F // p)) as [[|]|e]; reflexivity.
Qed.

Section Checks.

Variable w : World.
Variable loc : option string.
Variable f : string.
Variable C : list (string * yaml).

(** The paths a turn tests are the planned ones, whatever the entry of the
    variable is and however the turn ends. *)
Lemma resolve_var_file_checks (d : obs_dict) (v : string) :
  file_checks (trace (resolve_var w loc f (YMap C) d v)) =
  planned_checks w loc C v.
Proof.
  unfold planned_checks, obs_file_text.
  destruct (Py.lookup v C) as [e|] eqn:HC.
  - destruct e as [| | | s0 | l | m].
    1-5: unfold resolve_var, lift, ret, emit, bind, trace; simpl;
         rewrite HC; simpl; try reflexivity.
    + destruct (Str.contains "obs_file" s0); reflexivity.
    + destruct (existsb (Py.is_str "obs_file") l); reflexivity.
    + destruct (Py.lookup "obs_file" m) as [g|] eqn:Hm.
      * destruct g as [| | | s | |].
        1-3, 5-6: unfold resolve_var, lift, ret, emit, bind, trace; simpl;
                  rewrite HC; simpl; rewrite Hm; reflexivity.
        rewrite (resolve_var_record w loc f C m s v d HC Hm), until_candidates.
        unfold candidates. simpl.
        destruct (is_file w (PosixPath.of_string s)) as [[|]|e]; try reflexivity.
        destruct (fallback loc) as [F|]; [|reflexivity].
        destruct (is_file w (F // PosixPath.of_string s)) as [[|]|e]; reflexivity.
      * unfold resolve_var, lift, ret, emit, bind, trace; simpl.
        rewrite HC. simpl. rewrite Hm. reflexivity.
  - unfold resolve_var, lift, ret, emit, bind, trace; simpl.
    rewrite HC. reflexivity.
Qed.

(** The loop tests the planned paths of its variables in the order of the
    list, and stops with the turn that raises. *)
Lemma for_each_file_checks_prefix (L : list string) (d : obs_dict) :
  exists rest,
    flat_map (planned_checks w loc C) L =
    file_checks (trace (for_each (resolve_var w loc f (YMap C)) L d)) ++ rest.
Proof.
  revert d. induction L as [|v r IH]; intros d; simpl.
  - now exists [].
  - rewrite trace_bind, file_checks_app, resolve_var_file_checks.
    destruct (outcome (resolve_var w loc f (YMap C) d v)) as [d'|e].
    + destruct (IH d') as [rest ->]. exists rest. now rewrite app_assoc.
    + exists (flat_map (planned_checks w loc C) r). simpl.
      now rewrite app_nil_r.
Qed.

Lemma for_each_file_checks_Ok (L : list string) (d d' : obs_dict) :
  outcome (for_each (resolve_var w loc f (YMap C)) L d) = Ok d' ->
  file_checks (trace (for_each (resolve_var w loc f (YMap C)) L d)) =
  flat_map (planned_checks w loc C) L.
Proof.
  revert d. induction L as [|v r IH]; intros d; simpl; [reflexivity|].
  rewrite outcome_bind, trace_bind, file_checks_app, resolve_var_file_checks.
  destruct (outcome (resolve_var w loc f (YMap C) d v)) as [d1|e];
    [|discriminate].
  intros H. now rewrite (IH d1 H).
Qed.

End Checks.

(** The file tests of a model-vs-obs run are those of its loop. *)
Lemma init_file_checks (w : World) (bi : BasicInfo) (L : list string) (vd : yaml) :
  compare_obs bi = true ->
  yaml_load w (defaults_file w (custom_defaults bi)) = Ok vd ->
  file_checks (trace (init w (mkConfig (Some bi) (Some L)))) =
  file_checks
    (trace (for_each (resolve_var w (obs_data_loc bi)
                        (defaults_file w (custom_defaults bi)) vd) L [])).
Proof.
  intros Hc Hl.
  unfold init, open_yaml, read_config_var_required, emit, lift, ret, bind,
    outcome, trace.
  simpl. rewrite Hc. simpl.
  destruct (use_defaults bi); simpl; rewrite Hl; simpl.
  - destruct (Py.truthy vd); simpl; rewrite ?Hl; simpl;
      destruct (for_each _ L []) as [t [d|e]]; simpl;
      rewrite ?app_nil_r; try reflexivity;
      destruct d; simpl; rewrite ?file_checks_app; simpl;
      rewrite ?app_nil_r; reflexivity.
  - destruct (for_each _ L []) as [t [d|e]]; simpl;
      rewrite ?app_nil_r; try reflexivity;
      destruct d; simpl; rewrite ?file_checks_app; simpl;
      rewrite ?app_nil_r; reflexivity.
Qed.

(** C2: in a model-vs-obs run, for every requested variable whose defaults
    hold a text under ["obs_file"], the constructor tests the path made from
    that text as it stands; only when that test answers no and the
    configured [obs_data_loc] is in force does it test that directory joined
    with the whole of the path, all of its components and not the last one
    alone; it tests nothing more for the variable.  The tests of the run are
    these, variable after variable in the order of the list, up to the turn
    that raises if one does; and in a finished instance the [obs_file]
    stored for the variable is the first candidate whose test answered yes,
    with no entry when none did. *)
Theorem C2_candidates_in_order (w : World) (bi : BasicInfo) (L : list string)
    (C : list (string * yaml)) :
  compare_obs bi = true ->
  yaml_load w (defaults_file w (custom_defaults bi)) = Ok (YMap C) ->
  let cfg := mkConfig (Some bi) (Some L) in
  let loc := obs_data_loc bi in
  (forall v s,
     obs_file_text C v = Some s ->
     let p := PosixPath.of_string s in
     candidates loc p = p :: match fallback loc with
                             | Some F => [F // p]
                             | None => []
                             end /\
     match fallback loc with
     | Some F =>
         PosixPath.tail (F // p) =
         if PosixPath.is_absolute p then PosixPath.tail p
         else PosixPath.tail F ++ PosixPath.tail p
     | None => True
     end /\
     planned_checks w loc C v =
     match is_file w p with
     | Ok false => candidates loc p
     | _ => [p]
     end) /\
  (exists rest,
     flat_map (planned_checks w loc C) L =
     file_checks (trace (init w cfg)) ++ rest) /\
  (forall o,
     outcome (init w cfg) = Ok o ->
     file_checks (trace (init w cfg)) = flat_map (planned_checks w loc C) L /\
     forall v s,
       In v L ->
       obs_file_text C v = Some s ->
       first_existing w (candidates loc (PosixPath.of_string s)) =
       Ok (option_map obs_file (Py.lookup v (var_obs_dict o)))).
Proof.
  intros Hc Hl cfg loc. subst cfg loc. split; [|split].
  - intros v s Hs p. split; [reflexivity|]. split.
    + destruct (fallback (obs_data_loc bi)) as [F|]; [|exact I].
      destruct (PosixPath.is_absolute p) eqn:E.
      * now rewrite joinpath_absolute.
      * now rewrite joinpath_relative.
    + unfold planned_checks. rewrite Hs. apply until_candidates.
  - rewrite (init_file_checks w bi L (YMap C) Hc Hl).
    apply for_each_file_checks_prefix.
  - intros o H. split.
    + rewrite (init_file_checks w bi L (YMap C) Hc Hl).
      rewrite (init_compare_outcome w bi L Hc) in H. simpl in H.
      rewrite Hl in H.
      destruct (outcome (for_each _ L [])) as [d|e] eqn:E; [|discriminate].
      exact (for_each_file_checks_Ok w _ _ C L [] d E).
    + intros v s Hin Hs.
      destruct (init_Ok_compare w bi L o Hc H) as (vd & Hl' & Hp & Hd & _).
      rewrite Hl in Hl'. injection Hl' as <-.
      unfold obs_file_text in Hs.
      destruct (Py.lookup v C) as [[| | | | |m]|] eqn:HC; try discriminate.
      destruct (Py.lookup "obs_file" m) as [[| | |s'| |]|] eqn:Hm;
        try discriminate.
      injection Hs as ->.
      rewrite forallb_forall in Hp. specialize (Hp v Hin).
      unfold passes in Hp.
      rewrite Hd, lookup_fold_store. apply mem_In in Hin. rewrite Hin.
      rewrite (verdict_record w _ _ C m s v HC Hm) in *.
      destruct (first_existing w _) as [[q|]|e]; simpl in *;
        try reflexivity; discriminate.
Qed.

Lemma C2_candidates_in_order_witness :
  file_checks (trace (init Scenario.w_fb
                        (Scenario.cfg true true (Some "/obs") ["TA"]))) =
  [PosixPath.mkPath "" ["sub"; "ta.nc"];
   PosixPath.mkPath "/" ["obs"; "sub"; "ta.nc"]] /\
  first_existing Scenario.w_fb
    (candidates (Some "/obs") (PosixPath.of_string "sub/ta.nc")) =
  Ok (Some (PosixPath.mkPath "/" ["obs"; "sub"; "ta.nc"])).
Proof.
  pose proof (C2_candidates_in_order Scenario.w_fb
                (mkBasicInfo true None true (Some "/obs")) ["TA"]
                [("TA", YMap [("obs_file", YStr "sub/ta.nc");
                              ("obs_name", YStr "ERA5");
                              ("obs_var_name", YStr "t")])]
                eq_refl eq_refl) as H.
  destruct H as (_ & _ & H).
  destruct (H (mkAdfObs true Scenario.C_fb ["TA"] true
                 [("TA", mkObsRecord (PosixPath.mkPath "/" ["obs"; "sub"; "ta.nc"])
                                     (YStr "ERA5") (YStr "t"))])
              eq_refl) as [Hc Hs].
  split; [exact Hc | exact (Hs "TA" "sub/ta.nc" (or_introl eq_refl) eq_refl)].
Defined.

(** The example of the specification: a record with [obs_file] equal to
    ["/data/TACR.nc"] and no [obs_name] is given the name ["TACR.nc"]. *)
Example default_naming :
  PosixPath.name (PosixPath.of_string "/data/TACR.nc") = "TACR.nc".
Proof. reflexivity. Qed.

(** C6: for every entry of the observations dictionary of a finished
    instance, the variable's defaults are a mapping; the stored [obs_name] is
    the value under ["obs_name"] there when that key is present and else the
    last component of the stored path, and the stored [obs_var] is the value
    under ["obs_var_name"] when present and else the variable's own name. *)
Theorem C6_stored_names (w : World) (cfg : Config) (o : AdfObs)
    (v : string) (r : ObsRecord) :
  outcome (init w cfg) = Ok o ->
  In (v, r) (var_obs_dict o) ->
  exists bi C m,
    diag_basic_info cfg = Some bi /\
    yaml_load w (defaults_file w (custom_defaults bi)) = Ok (YMap C) /\
    Py.lookup v C = Some (YMap m) /\
    obs_name r = match Py.lookup "obs_name" m with
                 | Some n => n
                 | None => YStr (PosixPath.name (obs_file r))
                 end /\
    obs_var r = match Py.lookup "obs_var_name" m with
                | Some n => n
                | None => YStr v
                end.
Proof.
  intros H Hin.
  apply (In_lookup_NoDup _ _ _ (catalog_NoDup w cfg o H)) in Hin.
  destruct (init_Ok_config w cfg o H) as (bi & L & ->).
  destruct (catalog_entry w bi L o v r H Hin)
    as (_ & _ & C & m & s & q & Hl & HC & _ & _ & ->).
  exists bi, C, m. simpl. auto.
Qed.

Lemma C6_stored_names_witness :
  exists bi C m,
    Some (mkBasicInfo true None true (Some "/obs")) = Some bi /\
    yaml_load Scenario.w_fb (defaults_file Scenario.w_fb (custom_defaults bi)) =
      Ok (YMap C) /\
    Py.lookup "TA" C = Some (YMap m) /\
    YStr "ERA5" = match Py.lookup "obs_name" m with
                  | Some n => n
                  | None => YStr "ta.nc"
                  end /\
    YStr "t" = match Py.lookup "obs_var_name" m with
               | Some n => n
               | None => YStr "TA"
               end.
Proof.
  exact (C6_stored_names Scenario.w_fb
           (Scenario.cfg true true (Some "/obs") ["TA"])
           (mkAdfObs true Scenario.C_fb ["TA"] true
              [("TA", mkObsRecord (PosixPath.mkPath "/" ["obs"; "sub"; "ta.nc"])
                                  (YStr "ERA5") (YStr "t"))])
           "TA"
           (mkObsRecord (PosixPath.mkPath "/" ["obs"; "sub"; "ta.nc"])
                        (YStr "ERA5") (YStr "t"))
           eq_refl (or_introl eq_refl)).
Defined.

(** C3, as the specification has it, fails: the constructor stores the path
    it tested and never makes it absolute.  Here the defaults name the file
    ["ta.nc"], which exists where the program runs, and the stored path is
    the relative path of that one component. *)
Lemma C3_counterexample :
  result_map var_obs_dict
    (outcome (init Scenario.w_rel (Scenario.cfg true true None ["TA"]))) =
  Ok [("TA", mkObsRecord (PosixPath.mkPath "" ["ta.nc"]) (YStr "ta.nc") (YStr "TA"))]
  /\ PosixPath.is_absolute (PosixPath.mkPath "" ["ta.nc"]) = false.
Proof. split; reflexivity. Qed.

(** C3, amended: for every entry of the observations dictionary of a
    finished instance, the stored [obs_file] is the candidate that was found
    to exist, as it was tested: the path made from the text under
    ["obs_file"], or the fallback directory joined with it.  It is absolute
    exactly when that text starts with a slash, or the candidate is the
    joined one and the fallback directory is absolute. *)
Theorem C3_stored_path (w : World) (cfg : Config) (o : AdfObs)
    (v : string) (r : ObsRecord) :
  outcome (init w cfg) = Ok o ->
  In (v, r) (var_obs_dict o) ->
  exists bi C m s,
    diag_basic_info cfg = Some bi /\
    yaml_load w (defaults_file w (custom_defaults bi)) = Ok (YMap C) /\
    Py.lookup v C = Some (YMap m) /\
    Py.lookup "obs_file" m = Some (YStr s) /\
    first_existing w (candidates (obs_data_loc bi) (PosixPath.of_string s)) =
      Ok (Some (obs_file r)) /\
    is_file w (obs_file r) = Ok true /\
    PosixPath.is_absolute (obs_file r) =
      String.prefix "/" s ||
      (negb (exists_file w (PosixPath.of_string s)) &&
       match fallback (obs_data_loc bi) with
       | Some F => PosixPath.is_absolute F
       | None => false
       end).
Proof.
  intros H Hin.
  apply (In_lookup_NoDup _ _ _ (catalog_NoDup w cfg o H)) in Hin.
  destruct (init_Ok_config w cfg o H) as (bi & L & ->).
  destruct (catalog_entry w bi L o v r H Hin)
    as (_ & _ & C & m & s & q & Hl & HC & Hs & Hq & ->).
  exists bi, C, m, s. simpl. repeat split; auto.
  - unfold candidates in Hq. simpl in Hq.
    destruct (is_file w (PosixPath.of_string s)) as [[|]|e] eqn:E;
      try discriminate.
    + now injection Hq as <-.
    + destruct (fallback (obs_data_loc bi)) as [F|]; simpl in Hq; [|discriminate].
      destruct (is_file w (F // PosixPath.of_string s)) as [[|]|e] eqn:E2;
        try discriminate.
      now injection Hq as <-.
  - rewrite <- is_absolute_of_string. unfold candidates in Hq. simpl in Hq.
    unfold exists_file.
    destruct (is_file w (PosixPath.of_string s)) as [[|]|e] eqn:E;
      try discriminate.
    + injection Hq as <-. simpl. now rewrite orb_false_r.
    + destruct (fallback (obs_data_loc bi)) as [F|]; simpl in Hq; [|discriminate].
      destruct (is_file w (F // PosixPath.of_string s)) as [[|]|e];
        try discriminate.
      injection Hq as <-. simpl. apply is_absolute_joinpath.
Qed.

Lemma C3_stored_path_witness :
  exists bi C m s,
    Some (mkBasicInfo true None true None) = Some bi /\
    yaml_load Scenario.w_rel (defaults_file Scenario.w_rel (custom_defaults bi)) =
      Ok (YMap C) /\
    Py.lookup "TA" C = Some (YMap m) /\
    Py.lookup "obs_file" m = Some (YStr s) /\
    first_existing Scenario.w_rel
         (candidates (obs_data_loc bi) (PosixPath.of_string s)) =
      Ok (Some (PosixPath.mkPath "" ["ta.nc"])) /\
    is_file Scenario.w_rel (PosixPath.mkPath "" ["ta.nc"]) = Ok true /\
    PosixPath.is_absolute (PosixPath.mkPath "" ["ta.nc"]) =
      String.prefix "/" s ||
      (negb (exists_file Scenario.w_rel (PosixPath.of_string s)) &&
       match fallback (obs_data_loc bi) with
       | Some F => PosixPath.is_absolute F
       | None => false
       end).
Proof.
  exact (C3_stored_path Scenario.w_rel (Scenario.cfg true true None ["TA"])
           (mkAdfObs true Scenario.C_rel ["TA"] true
              [("TA", mkObsRecord (PosixPath.mkPath "" ["ta.nc"])
                                  (YStr "ta.nc") (YStr "TA"))])
           "TA"
           (mkObsRecord (PosixPath.mkPath "" ["ta.nc"]) (YStr "ta.nc") (YStr "TA"))
           eq_refl (or_introl eq_refl)).
Defined.

(* ===================================================================== *)
(** ** An absolute name that is missing *)
(* ===================================================================== *)




(* ===================================================================== *)
(** ** Entries of the defaults that are not mappings *)
(* ===================================================================== *)

(** The membership test refuses exactly the entries that are neither a
    mapping, a sequence nor a string. *)
Lemma contains_scalar (k : string) (e : yaml) :
  Py.contains k e = Raise TypeError <-> is_scalar e = true.
Proof. destruct e; simpl; split; congruence. Qed.

(** C10, as stated, fails: an entry that is a string is not a mapping, and
    the membership test on it is the substring test, which raises nothing.
    Here the entry of ["TS"] is the string ["n/a"]; the constructor
    completes, the variable is skipped with the notice of a missing
    [obs_file], and the warning is printed. *)
Lemma C10_counterexample :
  is_mapping (YStr "n/a") = false /\
  init Scenario.w_str (Scenario.cfg true true None ["TS"]) =
  ([OpenYaml Scenario.bundled;
    DebugLog "No observations file was listed for variable 'TS'.";
    Print wmsg],
   Ok (mkAdfObs true Scenario.C_str ["TS"] true [])).
Proof. split; reflexivity. Qed.

(** C10, amended: in a model-vs-obs run, let the defaults give a requested
    variable an entry that is not a mapping.  When the entry is null, a
    boolean or a number the membership test for ["obs_file"] raises
    [TypeError]; when it is a string or a sequence the test answers, and the
    variable is skipped with the notice that no file was listed, unless the
    answer is yes, in which case the subscript that follows raises
    [TypeError].  Whenever the turn raises, the constructor builds no
    instance: it ends with an exception, which is this [TypeError] when no
    turn before the variable's has raised, and otherwise the [TypeError] or
    the exception of a file test of an earlier turn. *)
Theorem C10_entry_not_a_mapping (w : World) (bi : BasicInfo) (L : list string)
    (C : list (string * yaml)) (var : string) (e : yaml) :
  compare_obs bi = true ->
  yaml_load w (defaults_file w (custom_defaults bi)) = Ok (YMap C) ->
  In var L ->
  Py.lookup var C = Some e ->
  is_mapping e = false ->
  let f := defaults_file w (custom_defaults bi) in
  let cfg := mkConfig (Some bi) (Some L) in
  (Py.contains "obs_file" e = Raise TypeError <-> is_scalar e = true) /\
  (forall f d,
     resolve_var w (obs_data_loc bi) f (YMap C) d var =
     match Py.contains "obs_file" e with
     | Ok false => ([DebugLog (msg_no_file var)], Ok d)
     | _ => ([], Raise TypeError)
     end) /\
  match Py.contains "obs_file" e with
  | Ok false => True
  | _ =>
      (exists x, outcome (init w cfg) = Raise x /\
                 (x = TypeError \/ exists p, is_file w p = Raise x)) /\
      (forall pre post,
         L = pre ++ var :: post ->
         forallb (passes w (obs_data_loc bi) f (YMap C)) pre = true ->
         outcome (init w cfg) = Raise TypeError)
  end.
Proof.
  intros Hc Hl Hin HC Hnm f cfg. subst f cfg.
  assert (Hturn : forall f d,
     resolve_var w (obs_data_loc bi) f (YMap C) d var =
     match Py.contains "obs_file" e with
     | Ok false => ([DebugLog (msg_no_file var)], Ok d)
     | _ => ([], Raise TypeError)
     end).
  { intros f d. unfold resolve_var, lift, ret, emit, bind. simpl.
    rewrite HC. simpl.
    destruct e as [| | | s0 | l | m]; simpl in *; try reflexivity; try discriminate.
    - destruct (Str.contains "obs_file" s0); reflexivity.
    - destruct (existsb (Py.is_str "obs_file") l); reflexivity. }
  split; [apply contains_scalar|]. split; [exact Hturn|].
  assert (Hraise : Py.contains "obs_file" e <> Ok false ->
            verdict w (obs_data_loc bi) (defaults_file w (custom_defaults bi))
                    (YMap C) var = Raise TypeError).
  { intros Hne. unfold verdict. rewrite Hturn.
    destruct (Py.contains "obs_file" e) as [[|]|x]; try reflexivity.
    now contradiction Hne. }
  assert (Hboth : Py.contains "obs_file" e <> Ok false ->
    (exists x, outcome (init w (mkConfig (Some bi) (Some L))) = Raise x /\
               (x = TypeError \/ exists p, is_file w p = Raise x)) /\
    (forall pre post,
       L = pre ++ var :: post ->
       forallb (passes w (obs_data_loc bi)
                  (defaults_file w (custom_defaults bi)) (YMap C)) pre = true ->
       outcome (init w (mkConfig (Some bi) (Some L))) = Raise TypeError)).
  { intros Hne. specialize (Hraise Hne).
    rewrite (init_compare_outcome w bi L Hc). simpl. rewrite Hl. split.
    - assert (Hp : passes w (obs_data_loc bi)
                     (defaults_file w (custom_defaults bi)) (YMap C) var = false)
        by (unfold passes; now rewrite Hraise).
      destruct (for_each_some_raise w _ _ _ L var [] Hin Hp)
        as (v' & x & _ & Hv & ->).
      exists x. split; [reflexivity|].
      exact (verdict_Raise_inv _ _ _ _ _ _ Hv).
    - intros pre post -> Hpre.
      now rewrite (for_each_first_raise w _ _ _ pre post var [] TypeError Hpre Hraise). }
  destruct (Py.contains "obs_file" e) as [[|]|x] eqn:E; try exact I;
    apply Hboth; discriminate.
Qed.

Lemma C10_entry_not_a_mapping_witness :
  outcome (init Scenario.w_null (Scenario.cfg true true None ["TS"])) =
  Raise TypeError.
Proof.
  exact (proj2 (proj2 (proj2
    (C10_entry_not_a_mapping Scenario.w_null (mkBasicInfo true None true None)
       ["TS"] [("TS", YNull)] "TS" YNull
       eq_refl eq_refl (or_introl eq_refl) eq_refl eq_refl))) [] [] eq_refl eq_refl).
Defined.

(** A run in which the file test of an earlier variable raises ends with
    that exception, and the null entry behind it is never looked at. *)
Example earlier_file_test_raises :
  init Scenario.w_long_null (Scenario.cfg true true None ["A"; "B"]) =
  ([OpenYaml Scenario.bundled;
    IsFile (PosixPath.mkPath "/" ["data"; "name-too-long.nc"])],
   Raise IOError).
Proof. reflexivity. Qed.

(* ===================================================================== *)
(** ** The accessors: what a caller can reach through a copy *)
(* ===================================================================== *)

Module StoreFacts.

Import Store.

Lemma update_length (h : heap) (a : addr) (o : object) :
  length (update h a o) = length h.
Proof.
  revert a. induction h as [|x r IH]; intros [|a]; simpl; auto.
Qed.

Lemma firstn_update (h : heap) (a n : nat) (o : object) :
  n <= a -> firstn n (update h a o) = firstn n h.
Proof.
  revert a n. induction h as [|x r IH]; intros a n Hle.
  - destruct a; reflexivity.
  - destruct a as [|a]; destruct n as [|n]; simpl; try reflexivity; try lia.
    f_equal. apply IH. lia.
Qed.

Lemma nth_error_update_same (h : heap) (a : addr) (o : object) :
  a < length h -> nth_error (update h a o) a = Some o.
Proof.
  revert a. induction h as [|x r IH]; intros [|a] Hlt; simpl in *;
    try lia; auto.
  apply IH. lia.
Qed.

Lemma firstn_alloc (h : heap) (o : object) :
  firstn (length h) (fst (alloc h o)) = h.
Proof.
  simpl. rewrite firstn_app, Nat.sub_diag, firstn_all. simpl.
  apply app_nil_r.
Qed.

(** An operation changes at most the object it was aimed at. *)
Lemma apply_op_target (h h' : heap) (r : value) (op : caller_op) :
  apply_op h r op = Some h' ->
  exists a o', navigate h r (op_path op) = Some (VRef a) /\ h' = update h a o'.
Proof.
  unfold apply_op.
  destruct (navigate h r (op_path op)) as [[| | | | |a]|]; try discriminate.
  destruct (nth_error h a) as [[items|items]|]; destruct op; try discriminate.
  - intros [= <-]. eauto.
  - destruct (Py.lookup k items); [|discriminate]. intros [= <-]. eauto.
  - intros [= <-]. eauto.
Qed.

(** Operations on the keys of the copy itself leave every object that was
    there before the copy as it was. *)
Lemma top_level_ops_frame (n : nat) (ops : list caller_op) (h : heap) :
  forallb top_level ops = true ->
  firstn n (apply_ops h (VRef n) ops) = firstn n h.
Proof.
  revert h. induction ops as [|op rest IH]; intros h Hall; simpl in *;
    [reflexivity|].
  apply andb_true_iff in Hall as [Hop Hrest].
  destruct (apply_op h (VRef n) op) as [h'|] eqn:E; [|now apply IH].
  rewrite (IH h' Hrest).
  apply apply_op_target in E as (a & o' & Hnav & ->).
  unfold top_level in Hop. destruct (op_path op); [|discriminate].
  simpl in Hnav. injection Hnav as <-. now apply firstn_update.
Qed.

(** Nothing can be done to an immutable value, nor through a reference
    that leads nowhere. *)
Lemma apply_op_immutable (h : heap) (v : value) (op : caller_op) :
  flat_value v = true -> apply_op h v op = None.
Proof.
  intros Hv. unfold apply_op.
  destruct (op_path op) as [|k p]; destruct v; simpl in *;
    try reflexivity; discriminate.
Qed.

Lemma apply_ops_immutable (h : heap) (v : value) (ops : list caller_op) :
  flat_value v = true -> apply_ops h v ops = h.
Proof.
  intros Hv. induction ops as [|op r IH]; simpl; [reflexivity|].
  now rewrite apply_op_immutable.
Qed.

Lemma apply_ops_dangling (h : heap) (a : addr) (ops : list caller_op) :
  nth_error h a = None -> apply_ops h (VRef a) ops = h.
Proof.
  intros E. induction ops as [|op r IH]; simpl; [reflexivity|].
  assert (Ho : apply_op h (VRef a) op = None).
  { unfold apply_op. destruct (op_path op) as [|k p]; simpl; now rewrite E. }
  now rewrite Ho.
Qed.

(** The copy of a dict or a list is a new object, and a caller that only
    assigns, deletes or appends at the top of the copy changes nothing of
    what the instance holds. *)
Lemma copy_isolates_top_level (h0 : heap) (v : value) (ops : list caller_op) :
  forallb top_level ops = true ->
  firstn (length h0)
         (apply_ops (fst (copy_copy h0 v)) (snd (copy_copy h0 v)) ops) = h0.
Proof.
  intros Hall. unfold copy_copy.
  destruct v as [| | | | |a]; simpl;
    try (rewrite apply_ops_immutable by reflexivity; apply firstn_all).
  destruct (nth_error h0 a) as [o|] eqn:E; simpl.
  - rewrite top_level_ops_frame by assumption.
    rewrite firstn_app, Nat.sub_diag, firstn_all. apply app_nil_r.
  - rewrite apply_ops_dangling by assumption. apply firstn_all.
Qed.

Lemma lookup_flat (k : string) (items : list (string * value)) (v : value) :
  forallb (fun kv => flat_value (snd kv)) items = true ->
  Py.lookup k items = Some v -> flat_value v = true.
Proof.
  induction items as [|[k' v'] r IH]; simpl; [discriminate|].
  intros H. apply andb_true_iff in H as [Hv Hr].
  destruct (String.eqb k' k); [now intros [= <-] | now apply IH].
Qed.

Lemma setitem_flat (k : string) (items : list (string * value)) (v : value) :
  forallb (fun kv => flat_value (snd kv)) items = true ->
  flat_value v = true ->
  forallb (fun kv => flat_value (snd kv)) (Py.setitem items k v) = true.
Proof.
  intros H Hv. induction items as [|[k' v'] r IH]; simpl in *.
  - now rewrite Hv.
  - apply andb_true_iff in H as [Hv' Hr].
    destruct (String.eqb k' k); simpl; rewrite ?Hv, ?Hv'; simpl; auto.
Qed.

Lemma remove_key_flat (k : string) (items : list (string * value)) :
  forallb (fun kv => flat_value (snd kv)) items = true ->
  forallb (fun kv => flat_value (snd kv)) (remove_key k items) = true.
Proof.
  induction items as [|[k' v'] r IH]; simpl; [reflexivity|].
  intros H. apply andb_true_iff in H as [Hv' Hr].
  destruct (String.eqb k' k); simpl; rewrite ?Hv'; simpl; auto.
Qed.

(** From an object that holds no reference, no other object is reached. *)
Lemma navigate_flat (h : heap) (n a : addr) (o : object) (path : list string) :
  nth_error h n = Some o ->
  flat_object o = true ->
  navigate h (VRef n) path = Some (VRef a) ->
  path = [] /\ a = n.
Proof.
  intros Ho Hf. destruct path as [|k p]; simpl.
  - intros [= <-]. now split.
  - rewrite Ho. destruct o as [items|items]; [|discriminate].
    destruct (Py.lookup k items) as [v'|] eqn:E; [|discriminate].
    pose proof (lookup_flat k items v' Hf E) as Hv.
    destruct p as [|k2 p2]; simpl.
    + intros [= ->]. discriminate.
    + destruct v'; try discriminate.
Qed.

Lemma apply_op_flat (h h' : heap) (n : addr) (o : object) (op : caller_op) :
  nth_error h n = Some o ->
  flat_object o = true ->
  flat_op op = true ->
  apply_op h (VRef n) op = Some h' ->
  exists o', h' = update h n o' /\ flat_object o' = true.
Proof.
  intros Ho Hf Hop. unfold apply_op.
  destruct (navigate h (VRef n) (op_path op)) as [[| | | | |a]|] eqn:Hnav;
    try discriminate.
  destruct (navigate_flat h n a o _ Ho Hf Hnav) as [_ ->].
  rewrite Ho. destruct o as [items|items]; destruct op; simpl in *;
    try discriminate.
  - intros [= <-]. eexists. split; [reflexivity|]. now apply setitem_flat.
  - destruct (Py.lookup k items); [|discriminate].
    intros [= <-]. eexists. split; [reflexivity|]. now apply remove_key_flat.
  - intros [= <-]. eexists. split; [reflexivity|]. simpl.
    rewrite forallb_app. simpl. now rewrite Hf, Hop.
Qed.

Lemma flat_ops_frame (n : addr) (ops : list caller_op) (h : heap) (o : object) :
  nth_error h n = Some o ->
  flat_object o = true ->
  forallb flat_op ops = true ->
  firstn n (apply_ops h (VRef n) ops) = firstn n h.
Proof.
  revert h o. induction ops as [|op rest IH]; intros h o Ho Hf Hall;
    simpl in *; [reflexivity|].
  apply andb_true_iff in Hall as [Hop Hrest].
  destruct (apply_op h (VRef n) op) as [h'|] eqn:E; [|now apply (IH h o)].
  destruct (apply_op_flat h h' n o op Ho Hf Hop E) as (o' & -> & Hf').
  rewrite (IH _ o'); auto.
  - now apply firstn_update.
  - apply nth_error_update_same. apply nth_error_Some. congruence.
Qed.

(** The copy of a list of strings, or of a dict of immutable values, gives
    the caller no way at all to what the instance holds, and neither does
    the copy of a bool. *)
Lemma copy_isolates_flat (h0 : heap) (v : value) (ops : list caller_op) :
  match v with
  | VRef a => match nth_error h0 a with
              | Some o => flat_object o
              | None => true
              end
  | _ => true
  end = true ->
  forallb flat_op ops = true ->
  firstn (length h0)
         (apply_ops (fst (copy_copy h0 v)) (snd (copy_copy h0 v)) ops) = h0.
Proof.
  intros Hv Hall. unfold copy_copy.
  destruct v as [| | | | |a]; simpl;
    try (rewrite apply_ops_immutable by reflexivity; apply firstn_all).
  destruct (nth_error h0 a) as [o|] eqn:E; simpl.
  - rewrite (flat_ops_frame (length h0) ops (h0 ++ [o]) o); auto.
    + rewrite firstn_app, Nat.sub_diag, firstn_all. apply app_nil_r.
    + rewrite nth_error_app2, Nat.sub_diag by lia. reflexivity.
  - rewrite apply_ops_dangling by assumption. apply firstn_all.
Qed.

Lemma nth_error_update_other (h : heap) (a b : addr) (o : object) :
  a <> b -> nth_error (update h a o) b = nth_error h b.
Proof.
  revert a b. induction h as [|x r IH]; intros [|a] [|b] Hne; simpl;
    try reflexivity; try congruence.
  apply IH. congruence.
Qed.

(** What the shallow copy shares: when the dict at [a] holds under [v] a
    reference to another dict, an assignment made through the copy under
    [v] is an assignment to that very dict, and is seen from [a]. *)
Lemma copy_shares_nested (h0 : heap) (a b : addr)
    (items record : list (string * value)) (v k : string) (x : value) :
  nth_error h0 a = Some (ODict items) ->
  Py.lookup v items = Some (VRef b) ->
  nth_error h0 b = Some (ODict record) ->
  a <> b ->
  let h1 := fst (copy_copy h0 (VRef a)) in
  let r := snd (copy_copy h0 (VRef a)) in
  let h2 := update h1 b (ODict (Py.setitem record k x)) in
  apply_op h1 r (SetItem [v] k x) = Some h2 /\
  navigate h0 (VRef a) [v; k] = Py.lookup k record /\
  navigate h2 (VRef a) [v; k] = Some x.
Proof.
  intros Ha Hv Hb Hne. unfold copy_copy. rewrite Ha. simpl.
  assert (Hla : a < length h0) by (apply nth_error_Some; congruence).
  assert (Hlb : b < length h0) by (apply nth_error_Some; congruence).
  assert (Hb1 : nth_error (h0 ++ [ODict items]) b = Some (ODict record))
    by (rewrite nth_error_app1; assumption).
  assert (Ha1 : nth_error (h0 ++ [ODict items]) a = Some (ODict items))
    by (rewrite nth_error_app1; assumption).
  repeat split.
  - unfold apply_op. simpl.
    rewrite nth_error_app2, Nat.sub_diag by lia. simpl.
    rewrite Hv, Hb1. reflexivity.
  - simpl. rewrite Ha. rewrite Hv. simpl. rewrite Hb.
    now destruct (Py.lookup k record).
  - simpl. rewrite nth_error_update_other by congruence. rewrite Ha1, Hv.
    simpl. rewrite nth_error_update_same by (rewrite length_app; lia).
    now rewrite lookup_setitem_same.
Qed.

End StoreFacts.

(** C4 does not hold of the two accessors that return dictionaries: the
    copy is one level deep, so the per-variable records are the very objects
    the instance holds.  On the instance of the first scenario a caller
    takes [var_obs_dict] and [variable_defaults], assigns under ["TS"] in
    each of the two copies, and the attributes of the instance, read all the
    way down before and after, differ. *)
Theorem C4_nested_records_shared :
  outcome (init Scenario.w1 (Scenario.cfg true true None ["TS"; "PRECT"])) =
    Ok Scenario.o1 /\
  let '(h0, self) := Store.new_instance Scenario.o1 in
  let '(h1, r) := Store.prop_var_obs_dict h0 self in
  let '(h2, r') := Store.prop_variable_defaults h1 self in
  let h3 :=
    Store.apply_ops h2 r
      [Store.SetItem ["TS"] "obs_name" (Store.VStr "changed")] in
  let h4 :=
    Store.apply_ops h3 r'
      [Store.SetItem ["TS"] "obs_file" (Store.VStr "/tmp/x.nc")] in
  Store.snapshot 2 h0 (Store.a_var_obs_dict self) =
    Some (Store.DDict
            [("TS", Store.DDict
                      [("obs_file", Store.DPath (PosixPath.mkPath "/" ["obs"; "TS.nc"]));
                       ("obs_name", Store.DStr "TS.nc");
                       ("obs_var", Store.DStr "TS")])]) /\
  Store.snapshot 2 h4 (Store.a_var_obs_dict self) =
    Some (Store.DDict
            [("TS", Store.DDict
                      [("obs_file", Store.DPath (PosixPath.mkPath "/" ["obs"; "TS.nc"]));
                       ("obs_name", Store.DStr "changed");
                       ("obs_var", Store.DStr "TS")])]) /\
  Store.snapshot 2 h0 (Store.a_variable_defaults self) =
    Some (Store.DDict
            [("TS", Store.DDict [("obs_file", Store.DStr "/obs/TS.nc")])]) /\
  Store.snapshot 2 h4 (Store.a_variable_defaults self) =
    Some (Store.DDict
            [("TS", Store.DDict [("obs_file", Store.DStr "/tmp/x.nc")])]).
Proof. repeat split. Qed.

(* ===================================================================== *)
(** ** The whole run of the constructor *)
(* ===================================================================== *)

Section Run.

Variable w : World.

(** The constructor of a model-vs-obs run whose defaults file can be read:
    its events and its outcome, in terms of the loop. *)
Lemma init_compare (bi : BasicInfo) (L : list string) (vd : yaml) :
  compare_obs bi = true ->
  yaml_load w (defaults_file w (custom_defaults bi)) = Ok vd ->
  let f := defaults_file w (custom_defaults bi) in
  let loop := for_each (resolve_var w (obs_data_loc bi) f vd) L [] in
  init w (mkConfig (Some bi) (Some L)) =
  (OpenYaml f ::
   (if use_defaults bi && negb (Py.truthy vd) then [OpenYaml f] else []) ++
   trace loop ++
   match outcome loop with Ok [] => [Print wmsg] | _ => [] end,
   match outcome loop with
   | Ok d =>
       Ok (mkAdfObs (use_defaults bi)
             (if use_defaults bi then vd else YMap []) L true d)
   | Raise e => Raise e
   end).
Proof.
  intros Hc Hl f loop. subst loop f.
  unfold init, open_yaml, read_config_var_required, emit, lift, ret, bind,
    outcome, trace.
  simpl. rewrite Hc. simpl.
  destruct (use_defaults bi); simpl; rewrite Hl; simpl.
  - destruct (Py.truthy vd); simpl; rewrite ?Hl; simpl;
      destruct (for_each _ L []) as [t [d|e]]; simpl;
      rewrite ?app_nil_r; try reflexivity;
      destruct d; simpl; rewrite ?app_nil_r; reflexivity.
  - destruct (for_each _ L []) as [t [d|e]]; simpl;
      rewrite ?app_nil_r; try reflexivity;
      destruct d; simpl; rewrite ?app_nil_r; reflexivity.
Qed.

(** When some turn raises, the constructor ends with an exception: a
    [TypeError] or the exception of a file test. *)
Lemma init_turn_raises (bi : BasicInfo) (L : list string) (vd : yaml)
    (var : string) :
  compare_obs bi = true ->
  yaml_load w (defaults_file w (custom_defaults bi)) = Ok vd ->
  In var L ->
  passes w (obs_data_loc bi) (defaults_file w (custom_defaults bi)) vd var = false ->
  exists x,
    outcome (init w (mkConfig (Some bi) (Some L))) = Raise x /\
    (x = TypeError \/ exists p, is_file w p = Raise x).
Proof.
  intros Hc Hl Hin Hp. rewrite (init_compare_outcome w bi L Hc). simpl.
  rewrite Hl.
  destruct (for_each_some_raise w _ _ _ L var [] Hin Hp)
    as (v' & x & _ & Hv & ->).
  exists x. split; [reflexivity|].
  exact (verdict_Raise_inv _ _ _ _ _ _ Hv).
Qed.

(** The constructor ends with the exception of the first turn that
    raises. *)
Lemma init_first_raise (bi : BasicInfo) (pre post : list string) (vd : yaml)
    (var : string) (e : exn) :
  compare_obs bi = true ->
  yaml_load w (defaults_file w (custom_defaults bi)) = Ok vd ->
  forallb (passes w (obs_data_loc bi) (defaults_file w (custom_defaults bi)) vd)
          pre = true ->
  verdict w (obs_data_loc bi) (defaults_file w (custom_defaults bi)) vd var =
    Raise e ->
  outcome (init w (mkConfig (Some bi) (Some (pre ++ var :: post)))) = Raise e.
Proof.
  intros Hc Hl Hpre Hv. rewrite (init_compare_outcome w bi _ Hc). simpl.
  rewrite Hl.
  now rewrite (for_each_first_raise w _ _ _ pre post var [] e Hpre Hv).
Qed.

(** The constructor when the variable list is missing. *)
Lemma init_no_var_list (bi : BasicInfo) :
  init w (mkConfig (Some bi) None) =
  if use_defaults bi then
    ([OpenYaml (defaults_file w (custom_defaults bi))],
     match yaml_load w (defaults_file w (custom_defaults bi)) with
     | Ok _ => Raise AdfError
     | Raise e => Raise e
     end)
  else ([], Raise AdfError).
Proof.
  unfold init, open_yaml, read_config_var_required, emit, lift, ret, bind.
  simpl. destruct (use_defaults bi); simpl; [|reflexivity].
  destruct (yaml_load w _); reflexivity.
Qed.

(** The constructor when the defaults file is needed and cannot be read. *)
Lemma init_unreadable (bi : BasicInfo) (L : list string) (e : exn) :
  use_defaults bi || compare_obs bi = true ->
  yaml_load w (defaults_file w (custom_defaults bi)) = Raise e ->
  init w (mkConfig (Some bi) (Some L)) =
  ([OpenYaml (defaults_file w (custom_defaults bi))], Raise e).
Proof.
  intros Hn Hl.
  unfold init, open_yaml, read_config_var_required, emit, lift, ret, bind.
  simpl. destruct (use_defaults bi); simpl in *.
  - now rewrite Hl.
  - rewrite Hn. simpl. now rewrite Hl.
Qed.

End Run.

(* ===================================================================== *)
(** ** Loading the defaults, and the errors that end the constructor *)
(* ===================================================================== *)

(** X1: when [use_defaults] is set, the defaults a finished instance exposes
    are what the defaults file holds, whatever that is: the file named by
    [custom_defaults] when that key is given, else the file
    [adf_variable_defaults.yaml] next to the module. *)
Theorem X1_defaults_exposed (w : World) (cfg : Config) (bi : BasicInfo)
    (o : AdfObs) :
  diag_basic_info cfg = Some bi ->
  use_defaults bi = true ->
  outcome (init w cfg) = Ok o ->
  yaml_load w
    (match custom_defaults bi with
     | Some f => f
     | None =>
         PosixPath.to_string
           (adf_lib_dir w // PosixPath.of_string "adf_variable_defaults.yaml")
     end) = Ok (variable_defaults o).
Proof.
  intros Hb Hu H. destruct (init_Ok_config w cfg o H) as (bi' & L & ->).
  simpl in Hb. injection Hb as ->.
  change (yaml_load w (defaults_file w (custom_defaults bi)) =
          Ok (variable_defaults o)).
  destruct (compare_obs bi) eqn:Hc.
  - destruct (init_Ok_compare w bi L o Hc H) as (vd & Hl & _ & _ & _ & _ & _ & Hv).
    rewrite Hu in Hv. now rewrite Hv.
  - rewrite (init_no_compare w bi L Hc), Hu in H. simpl in H.
    destruct (yaml_load w _) as [vd|e]; [|discriminate].
    now injection H as <-.
Qed.

Lemma X1_defaults_exposed_witness :
  yaml_load Scenario.w1 Scenario.bundled = Ok (variable_defaults Scenario.o1).
Proof.
  exact (X1_defaults_exposed Scenario.w1
           (Scenario.cfg true true None ["TS"; "PRECT"])
           (mkBasicInfo true None true None) Scenario.o1
           eq_refl eq_refl eq_refl).
Defined.

(** X2: when the defaults file is needed, because [use_defaults] or
    [compare_obs] is set, and cannot be read, the constructor ends with the
    exception of the failed read; it has opened that file once and done
    nothing else: no file was tested, nothing logged, nothing printed. *)
Theorem X2_unreadable_defaults (w : World) (bi : BasicInfo) (L : list string)
    (e : exn) :
  use_defaults bi || compare_obs bi = true ->
  yaml_load w (defaults_file w (custom_defaults bi)) = Raise e ->
  init w (mkConfig (Some bi) (Some L)) =
  ([OpenYaml (defaults_file w (custom_defaults bi))], Raise e).
Proof.
  intros Hn Hl. now apply init_unreadable.
Qed.

Lemma X2_unreadable_defaults_witness :
  init Scenario.w1
    (mkConfig (Some (mkBasicInfo false (Some "/home/me/defaults.yaml") true None))
              (Some ["TS"])) =
  ([OpenYaml "/home/me/defaults.yaml"], Raise IOError).
Proof.
  exact (X2_unreadable_defaults Scenario.w1
           (mkBasicInfo false (Some "/home/me/defaults.yaml") true None)
           ["TS"] IOError eq_refl eq_refl).
Defined.

(** X3: the two required keys.  Without [diag_basic_info] the constructor
    ends with [AdfError] before any call to the outside.  Without
    [diag_var_list] it never builds an instance and tests no file: it ends
    with [AdfError], after having read the defaults when they are to be
    used, or with the exception of that read. *)
Theorem X3_required_keys (w : World) (cfg : Config) :
  match diag_basic_info cfg, diag_var_list cfg with
  | None, _ => init w cfg = ([], Raise AdfError)
  | Some bi, None =>
      let f := defaults_file w (custom_defaults bi) in
      init w cfg =
      if use_defaults bi then
        ([OpenYaml f],
         match yaml_load w f with
         | Ok _ => Raise AdfError
         | Raise e => Raise e
         end)
      else ([], Raise AdfError)
  | Some _, Some _ => True
  end.
Proof.
  destruct cfg as [[bi|] [L|]]; simpl; try reflexivity; try exact I.
  apply init_no_var_list.
Qed.

Section Opens.

Variable w : World.

Lemma opened_app (t u : list event) : opened (t ++ u) = opened t ++ opened u.
Proof. apply flat_map_app. Qed.

Lemma resolve_var_opened loc f vd d var :
  opened (trace (resolve_var w loc f vd d var)) = [].
Proof.
  run. repeat (split_match; try reflexivity).
Qed.

Lemma for_each_opened loc f vd L d :
  opened (trace (for_each (resolve_var w loc f vd) L d)) = [].
Proof.
  revert d. induction L as [|v r IH]; intros d; simpl; [reflexivity|].
  rewrite trace_bind, opened_app, resolve_var_opened. simpl.
  destruct (outcome (resolve_var w loc f vd d v)); [apply IH | reflexivity].
Qed.

End Opens.

(** X4: how often the defaults file is read by a constructor that finishes:
    once when [use_defaults] is set, and once more in a model-vs-obs run
    when the defaults the instance keeps are empty (or otherwise false as a
    truth value), be it that they were switched off or that the file holds
    nothing.  No other file is opened. *)
Theorem X4_defaults_read_count (w : World) (cfg : Config) (bi : BasicInfo)
    (o : AdfObs) :
  diag_basic_info cfg = Some bi ->
  outcome (init w cfg) = Ok o ->
  opened (trace (init w cfg)) =
  repeat (defaults_file w (custom_defaults bi))
    ((if use_defaults_of o then 1 else 0) +
     (if compare_obs_of o && negb (Py.truthy (variable_defaults o))
      then 1 else 0)).
Proof.
  intros Hb H. destruct (init_Ok_config w cfg o H) as (bi' & L & ->).
  simpl in Hb. injection Hb as ->.
  destruct (compare_obs bi) eqn:Hc.
  - destruct (init_Ok_compare w bi L o Hc H)
      as (vd & Hl & _ & _ & _ & Hco & Hu & Hv).
    rewrite Hco, Hu, Hv. rewrite (init_compare w bi L vd Hc Hl).
    cbv zeta. unfold trace at 1. cbn [fst].
    change (OpenYaml ?f :: ?t) with ([OpenYaml f] ++ t).
    rewrite !opened_app, for_each_opened. simpl.
    assert (Hp : opened
                   match outcome (for_each
                           (resolve_var w (obs_data_loc bi)
                              (defaults_file w (custom_defaults bi)) vd) L [])
                   with Ok [] => [Print wmsg] | _ => [] end = []).
    { destruct (outcome (for_each _ L [])) as [[|? ?]|?]; reflexivity. }
    rewrite Hp, app_nil_r.
    destruct (use_defaults bi); simpl; [|reflexivity].
    destruct (Py.truthy vd); reflexivity.
  - rewrite (init_no_compare w bi L Hc) in *.
    destruct (use_defaults bi); simpl in *.
    + destruct (yaml_load w _); [|discriminate]. injection H as <-. reflexivity.
    + injection H as <-. reflexivity.
Qed.

Lemma X4_defaults_read_count_witness :
  opened (trace (init Scenario.w_str
                   (mkConfig (Some (mkBasicInfo false None true None))
                             (Some ["TS"])))) =
  [Scenario.bundled].
Proof.
  exact (X4_defaults_read_count Scenario.w_str
           (mkConfig (Some (mkBasicInfo false None true None)) (Some ["TS"]))
           (mkBasicInfo false None true None)
           (mkAdfObs false (YMap []) ["TS"] true [])
           eq_refl eq_refl).
Defined.

(** X5: the exceptions that can end the constructor are [AdfError] for a
    missing required key, the exception of a failed read of the defaults
    file, the exception a file test ends with, and [TypeError]; the
    subscripts of the loop add no other, each being guarded by a membership
    test. *)
Theorem X5_exceptions (w : World) (cfg : Config) (e : exn) :
  outcome (init w cfg) = Raise e ->
  e = AdfError \/ e = TypeError \/
  (exists p, is_file w p = Raise e) \/
  exists bi, diag_basic_info cfg = Some bi /\
             yaml_load w (defaults_file w (custom_defaults bi)) = Raise e.
Proof.
  destruct cfg as [[bi|] [L|]].
  - destruct (compare_obs bi) eqn:Hc.
    + rewrite (init_compare_outcome w bi L Hc). simpl.
      destruct (yaml_load w _) as [vd|x] eqn:Hl.
      * destruct (outcome (for_each _ L [])) as [d|x] eqn:Hf; [discriminate|].
        intros [= <-].
        destruct (forallb (passes w (obs_data_loc bi)
                    (defaults_file w (custom_defaults bi)) vd) L) eqn:Hall.
        -- rewrite (for_each_Ok w _ _ _ L [] Hall) in Hf. discriminate.
        -- destruct (for_each_Raise w _ _ _ L [] Hall) as (v' & y & _ & Hv & Ho).
           rewrite Ho in Hf. injection Hf as <-.
           destruct (verdict_Raise_inv _ _ _ _ _ _ Hv) as [->|Hp]; auto.
      * intros [= <-]. right. right. right. now exists bi.
    + rewrite (init_no_compare w bi L Hc).
      destruct (use_defaults bi); simpl; [|discriminate].
      destruct (yaml_load w _) as [vd|x] eqn:Hl; [discriminate|].
      intros [= <-]. right. right. right. now exists bi.
  - pose proof (init_no_var_list w bi) as Hx. rewrite Hx.
    destruct (use_defaults bi); simpl.
    + destruct (yaml_load w _) as [vd|x] eqn:Hl; intros [= <-]; auto.
      right. right. right. now exists bi.
    + intros [= <-]. auto.
  - intros [= <-]. auto.
  - intros [= <-]. auto.
Qed.

Lemma X5_exceptions_witness :
  IOError = AdfError \/ IOError = TypeError \/
  (exists p, is_file Scenario.w_long p = Raise IOError) \/
  exists bi,
    diag_basic_info (Scenario.cfg true true (Some "/obs") ["TS"]) = Some bi /\
    yaml_load Scenario.w_long (defaults_file Scenario.w_long (custom_defaults bi)) =
    Raise IOError.
Proof.
  exact (X5_exceptions Scenario.w_long
           (Scenario.cfg true true (Some "/obs") ["TS"]) IOError eq_refl).
Defined.

(* ===================================================================== *)
(** ** What the loop logs and tests *)
(* ===================================================================== *)

Section Turns.

Variable w : World.
Variable obs_data_loc_ : option string.
Variable _defaults_file : string.
Variable vd : yaml.

#[local] Abbreviation turn := (resolve_var w obs_data_loc_ _defaults_file vd).

(** A turn that stores a record logs nothing, a turn that skips its
    variable logs one line, and a turn that raises logs nothing. *)
Lemma turn_logged (var : string) :
  match verdict w obs_data_loc_ _defaults_file vd var with
  | Ok None => exists s, logged (trace (turn [] var)) = [s]
  | _ => logged (trace (turn [] var)) = []
  end.
Proof.
  unfold verdict. run.
  repeat (split_match; try reflexivity; try discriminate; eauto).
Qed.

Lemma turn_file_checks (d : obs_dict) (var : string) :
  length (file_checks (trace (turn d var))) <=
  match fallback obs_data_loc_ with Some _ => 2 | None => 1 end.
Proof.
  unfold fallback. run.
  repeat (split_match; try discriminate; try lia).
Qed.

Lemma for_each_logged_count (L : list string) (d : obs_dict) :
  forallb (passes w obs_data_loc_ _defaults_file vd) L = true ->
  length (logged (trace (for_each turn L d))) =
  length (filter (fun v => negb (accepted w obs_data_loc_ _defaults_file vd v)) L).
Proof.
  revert d. induction L as [|v r IH]; intros d H; simpl in *; [reflexivity|].
  apply andb_true_iff in H as [Hv Hr].
  rewrite trace_bind, logged_app, length_app, resolve_var_trace,
    resolve_var_outcome.
  pose proof (turn_logged v) as Ht. unfold passes in Hv. unfold accepted at 1.
  destruct (verdict w obs_data_loc_ _defaults_file vd v) as [[x|]|e];
    try discriminate; simpl.
  - rewrite Ht. simpl. now apply IH.
  - destruct Ht as [s ->]. simpl. f_equal. now apply IH.
Qed.

Lemma for_each_file_checks (L : list string) (d : obs_dict) :
  length (file_checks (trace (for_each turn L d))) <=
  match fallback obs_data_loc_ with Some _ => 2 | None => 1 end * length L.
Proof.
  revert d. induction L as [|v r IH]; intros d; simpl; [lia|].
  rewrite trace_bind, file_checks_app, length_app.
  pose proof (turn_file_checks d v) as Hv.
  destruct (outcome (turn d v)) as [d'|e].
  - specialize (IH d'). lia.
  - simpl. lia.
Qed.

End Turns.

(** X6: in a model-vs-obs run that finishes, the lines sent to the log are
    as many as the places of the variable list that hold a variable without
    an entry in the observations dictionary: one line for each turn that
    skips its variable, so a skipped variable listed twice is logged twice,
    and none for a variable that is stored. *)
Theorem X6_one_notice_per_skip (w : World) (cfg : Config) (o : AdfObs) :
  outcome (init w cfg) = Ok o ->
  compare_obs_of o = true ->
  length (logged (trace (init w cfg))) =
  length (filter (fun v => negb (mem v (Py.keys (var_obs_dict o))))
                 (diag_var_list_of o)).
Proof.
  intros H Hco. destruct (init_Ok_config w cfg o H) as (bi & L & ->).
  destruct (compare_obs bi) eqn:Hc.
  - destruct (init_Ok_compare w bi L o Hc H)
      as (vd & Hl & Hp & _ & HL & _).
    destruct (catalog_keys w bi L o Hc H) as (vd' & Hl' & HK).
    rewrite Hl in Hl'. injection Hl' as <-.
    rewrite HL, HK. rewrite (init_compare w bi L vd Hc Hl).
    cbv zeta. unfold trace at 1. cbn [fst].
    change (OpenYaml ?f :: ?t) with ([OpenYaml f] ++ t).
    rewrite !logged_app, !length_app.
    rewrite (for_each_logged_count w _ _ vd L [] Hp).
    assert (H1 : length (logged [OpenYaml (defaults_file w (custom_defaults bi))]) = 0)
      by reflexivity.
    assert (H2 : length (logged (if use_defaults bi && negb (Py.truthy vd)
                                 then [OpenYaml (defaults_file w (custom_defaults bi))]
                                 else [])) = 0)
      by (destruct (use_defaults bi && negb (Py.truthy vd)); reflexivity).
    assert (H3 : length (logged
                   match outcome (for_each
                           (resolve_var w (obs_data_loc bi)
                              (defaults_file w (custom_defaults bi)) vd) L [])
                   with Ok [] => [Print wmsg] | _ => [] end) = 0).
    { destruct (outcome (for_each _ L [])) as [[|? ?]|?]; reflexivity. }
    rewrite H1, H2, H3, Nat.add_0_r. simpl. f_equal.
    apply filter_ext_in. intros v Hv. f_equal.
    destruct (accepted w (obs_data_loc bi) _ vd v) eqn:Ha; symmetry.
    + apply mem_In, filter_In. split; [now apply dedup_In | exact Ha].
    + apply mem_false. rewrite filter_In. intros [_ Hx]. congruence.
  - rewrite (init_no_compare w bi L Hc) in H.
    destruct (use_defaults bi); simpl in H.
    + destruct (yaml_load w _); [|discriminate]. injection H as <-.
      discriminate.
    + injection H as <-. discriminate.
Qed.

Lemma X6_one_notice_per_skip_witness :
  length (logged (trace (init Scenario.w1
                           (Scenario.cfg true true None
                              ["PRECT"; "TS"; "PRECT"])))) = 2.
Proof.
  exact (X6_one_notice_per_skip Scenario.w1
           (Scenario.cfg true true None ["PRECT"; "TS"; "PRECT"])
           (mkAdfObs true Scenario.C_TS ["PRECT"; "TS"; "PRECT"] true
              [("TS", mkObsRecord (PosixPath.mkPath "/" ["obs"; "TS.nc"])
                                  (YStr "TS.nc") (YStr "TS"))])
           eq_refl eq_refl).
Defined.

(** X7: the constructor, whether it finishes or raises, tests at most two
    paths for each place of the variable list, and at most one when no
    fallback directory is in force. *)
Theorem X7_file_checks_bound (w : World) (cfg : Config) (bi : BasicInfo)
    (L : list string) :
  diag_basic_info cfg = Some bi ->
  diag_var_list cfg = Some L ->
  length (file_checks (trace (init w cfg))) <=
  match fallback (obs_data_loc bi) with Some _ => 2 | None => 1 end * length L.
Proof.
  intros Hb HL. destruct cfg as [b l]. simpl in *. subst b l.
  destruct (compare_obs bi) eqn:Hc.
  - destruct (yaml_load w (defaults_file w (custom_defaults bi))) as [vd|e] eqn:Hl.
    + rewrite (init_compare w bi L vd Hc Hl).
      cbv zeta. unfold trace at 1. cbn [fst].
      change (OpenYaml ?f :: ?t) with ([OpenYaml f] ++ t).
      rewrite !file_checks_app, !length_app.
      pose proof (for_each_file_checks w (obs_data_loc bi)
                    (defaults_file w (custom_defaults bi)) vd L []) as Hf.
      assert (H2 : length (file_checks
                             (if use_defaults bi && negb (Py.truthy vd)
                              then [OpenYaml (defaults_file w (custom_defaults bi))]
                              else [])) = 0)
        by (destruct (use_defaults bi && negb (Py.truthy vd)); reflexivity).
      assert (H3 : length (file_checks
                     match outcome (for_each
                             (resolve_var w (obs_data_loc bi)
                                (defaults_file w (custom_defaults bi)) vd) L [])
                     with Ok [] => [Print wmsg] | _ => [] end) = 0).
      { destruct (outcome (for_each _ L [])) as [[|? ?]|?]; reflexivity. }
      rewrite H2, H3. simpl. lia.
    + rewrite (init_unreadable w bi L e); [simpl; lia | | exact Hl].
      rewrite Hc. apply orb_true_r.
  - rewrite (init_no_compare w bi L Hc).
    destruct (use_defaults bi); simpl; [|lia].
    destruct (yaml_load w _); simpl; lia.
Qed.

Lemma X7_file_checks_bound_witness :
  length (file_checks (trace (init Scenario.w_abs
                                (Scenario.cfg true true (Some "/obs") ["TS"])))) <=
  2 * 1.
Proof.
  exact (X7_file_checks_bound Scenario.w_abs
           (Scenario.cfg true true (Some "/obs") ["TS"])
           (mkBasicInfo true None true (Some "/obs")) ["TS"] eq_refl eq_refl).
Defined.

(* ===================================================================== *)
(** ** Which variables are stored, skipped, or end the run *)
(* ===================================================================== *)

(** X8: in a model-vs-obs run that finishes, every variable of the list
    whose defaults are a mapping with a text under ["obs_file"], and for
    which one of the candidate paths exists, has an entry in the
    observations dictionary, and the entry is the record made for the first
    candidate that exists; when no candidate exists it has none. *)
Theorem X8_existing_file_is_stored (w : World) (bi : BasicInfo)
    (L : list string) (o : AdfObs) (C m : list (string * yaml)) (s v : string) :
  outcome (init w (mkConfig (Some bi) (Some L))) = Ok o ->
  compare_obs bi = true ->
  yaml_load w (defaults_file w (custom_defaults bi)) = Ok (YMap C) ->
  In v L ->
  Py.lookup v C = Some (YMap m) ->
  Py.lookup "obs_file" m = Some (YStr s) ->
  result_map (option_map (record_for m v))
    (first_existing w (candidates (obs_data_loc bi) (PosixPath.of_string s))) =
  Ok (Py.lookup v (var_obs_dict o)).
Proof.
  intros H Hc Hl Hin HC Hs.
  destruct (init_Ok_compare w bi L o Hc H) as (vd & Hl' & Hp & Hd & _).
  rewrite Hl in Hl'. injection Hl' as <-.
  rewrite forallb_forall in Hp. specialize (Hp v Hin). unfold passes in Hp.
  rewrite Hd, lookup_fold_store. apply mem_In in Hin. rewrite Hin.
  rewrite (verdict_record w _ _ C m s v HC Hs) in *.
  destruct (first_existing w
              (candidates (obs_data_loc bi) (PosixPath.of_string s)))
    as [[q|]|e]; simpl in *; try reflexivity; discriminate.
Qed.

Lemma X8_existing_file_is_stored_witness :
  Ok (Some (mkObsRecord (PosixPath.mkPath "/" ["obs"; "sub"; "ta.nc"])
                        (YStr "ERA5") (YStr "t"))) =
  Ok (Py.lookup "TA"
        [("TA", mkObsRecord (PosixPath.mkPath "/" ["obs"; "sub"; "ta.nc"])
                            (YStr "ERA5") (YStr "t"))]).
Proof.
  exact (X8_existing_file_is_stored Scenario.w_fb
           (mkBasicInfo true None true (Some "/obs")) ["TA"]
           (mkAdfObs true Scenario.C_fb ["TA"] true
              [("TA", mkObsRecord (PosixPath.mkPath "/" ["obs"; "sub"; "ta.nc"])
                                  (YStr "ERA5") (YStr "t"))])
           [("TA", YMap [("obs_file", YStr "sub/ta.nc");
                         ("obs_name", YStr "ERA5");
                         ("obs_var_name", YStr "t")])]
           [("obs_file", YStr "sub/ta.nc"); ("obs_name", YStr "ERA5");
            ("obs_var_name", YStr "t")]
           "sub/ta.nc" "TA"
           eq_refl eq_refl eq_refl (or_introl eq_refl) eq_refl eq_refl).
Defined.

(** X9: a variable that the defaults do not list, or whose mapping there has
    no ["obs_file"] key, costs one line in the log and no file test: the
    turn leaves the dictionary as it was, the line naming the defaults file
    in the first case, and a finished instance has no entry for it. *)
Theorem X9_unlisted_variable (w : World) (bi : BasicInfo) (L : list string)
    (C : list (string * yaml)) (var : string) :
  yaml_load w (defaults_file w (custom_defaults bi)) = Ok (YMap C) ->
  match Py.lookup var C with
  | None => True
  | Some (YMap m) => Py.lookup "obs_file" m = None
  | Some _ => False
  end ->
  (forall f d,
     resolve_var w (obs_data_loc bi) f (YMap C) d var =
     ([DebugLog (match Py.lookup var C with
                 | None => msg_no_defaults var f
                 | Some _ => msg_no_file var
                 end)],
      Ok d)) /\
  (forall o,
     outcome (init w (mkConfig (Some bi) (Some L))) = Ok o ->
     Py.lookup var (var_obs_dict o) = None).
Proof.
  intros Hl Hv. split.
  - intros f d. unfold resolve_var, lift, ret, emit, bind. simpl.
    destruct (Py.lookup var C) as [e|]; simpl; [|reflexivity].
    destruct e as [| | | | |m]; try contradiction. simpl. now rewrite Hv.
  - intros o H.
    destruct (Py.lookup var (var_obs_dict o)) as [r|] eqn:Hr; [|reflexivity].
    exfalso.
    destruct (catalog_entry w bi L o var r H Hr)
      as (_ & _ & C' & m' & s' & q & Hl' & HC' & Hs' & _).
    rewrite Hl in Hl'. injection Hl' as <-.
    rewrite HC' in Hv. congruence.
Qed.

Lemma X9_unlisted_variable_witness :
  resolve_var Scenario.w1 None Scenario.bundled Scenario.C_TS [] "PRECT" =
  ([DebugLog
      "Variable 'PRECT' not found in variable defaults file: `/adf/lib/adf_variable_defaults.yaml`"],
   Ok []).
Proof.
  exact (proj1 (X9_unlisted_variable Scenario.w1
                  (mkBasicInfo true None true None) ["TS"; "PRECT"]
                  [("TS", YMap [("obs_file", YStr "/obs/TS.nc")])] "PRECT"
                  eq_refl I) Scenario.bundled []).
Defined.

(** X10: when the value under ["obs_file"] is not a text (a null, a number,
    a list, ...) the turn raises [TypeError] on making the path, before any
    file is tested, and a model-vs-obs run that lists the variable builds no
    instance: it ends with this [TypeError] when no turn before the
    variable's has raised, and otherwise with the [TypeError] or the
    exception of a file test of an earlier turn. *)
Theorem X10_obs_file_not_text (w : World) (bi : BasicInfo) (L : list string)
    (C m : list (string * yaml)) (var : string) (g : yaml) :
  compare_obs bi = true ->
  yaml_load w (defaults_file w (custom_defaults bi)) = Ok (YMap C) ->
  In var L ->
  Py.lookup var C = Some (YMap m) ->
  Py.lookup "obs_file" m = Some g ->
  (forall s, g <> YStr s) ->
  let cfg := mkConfig (Some bi) (Some L) in
  (forall f d,
     resolve_var w (obs_data_loc bi) f (YMap C) d var = ([], Raise TypeError)) /\
  (exists x, outcome (init w cfg) = Raise x /\
             (x = TypeError \/ exists p, is_file w p = Raise x)) /\
  (forall pre post,
     L = pre ++ var :: post ->
     forallb (passes w (obs_data_loc bi)
                (defaults_file w (custom_defaults bi)) (YMap C)) pre = true ->
     outcome (init w cfg) = Raise TypeError).
Proof.
  intros Hc Hl Hin HC Hg Hns cfg. subst cfg.
  assert (Hturn : forall f d,
            resolve_var w (obs_data_loc bi) f (YMap C) d var =
            ([], Raise TypeError)).
  { intros f d. unfold resolve_var, lift, ret, emit, bind. simpl.
    rewrite HC. simpl. rewrite Hg. simpl.
    destruct g; try reflexivity. exfalso. now apply (Hns s). }
  assert (Hv : verdict w (obs_data_loc bi)
                 (defaults_file w (custom_defaults bi)) (YMap C) var =
               Raise TypeError)
    by (unfold verdict; now rewrite Hturn).
  split; [exact Hturn|]. split.
  - apply (init_turn_raises w bi L (YMap C) var Hc Hl Hin).
    unfold passes. now rewrite Hv.
  - intros pre post -> Hpre.
    exact (init_first_raise w bi pre post (YMap C) var TypeError Hc Hl Hpre Hv).
Qed.

Lemma X10_obs_file_not_text_witness :
  outcome (init (mkWorld Scenario.lib (Scenario.only [])
                   (Scenario.one_file Scenario.bundled
                      (YMap [("TS", YMap [("obs_file", YNull)])])))
                (Scenario.cfg true true None ["TS"])) =
  Raise TypeError.
Proof.
  refine (proj2 (proj2 (X10_obs_file_not_text
           (mkWorld Scenario.lib (Scenario.only [])
              (Scenario.one_file Scenario.bundled
                 (YMap [("TS", YMap [("obs_file", YNull)])])))
           (mkBasicInfo true None true None) ["TS"]
           [("TS", YMap [("obs_file", YNull)])] [("obs_file", YNull)]
           "TS" YNull eq_refl eq_refl (or_introl eq_refl) eq_refl eq_refl _))
           [] [] eq_refl eq_refl).
  intros s Hs. discriminate Hs.
Defined.

(** X11: when the defaults file holds no mapping but a null (an empty
    file), a boolean or a number, a model-vs-obs run with a variable to
    resolve ends with [TypeError] at the first membership test; with an
    empty variable list nothing is asked of the defaults, whatever they
    are, and the constructor finishes with an empty dictionary. *)
Theorem X11_defaults_not_a_mapping (w : World) (bi : BasicInfo)
    (L : list string) (vd : yaml) :
  compare_obs bi = true ->
  yaml_load w (defaults_file w (custom_defaults bi)) = Ok vd ->
  L = [] \/ is_scalar vd = true ->
  outcome (init w (mkConfig (Some bi) (Some L))) =
  match L with
  | [] =>
      Ok (mkAdfObs (use_defaults bi) (if use_defaults bi then vd else YMap [])
                   [] true [])
  | _ :: _ => Raise TypeError
  end.
Proof.
  intros Hc Hl HL. destruct L as [|v r].
  - rewrite (init_compare_outcome w bi [] Hc). simpl. now rewrite Hl.
  - destruct HL as [HL|Hs]; [discriminate|].
    apply (init_first_raise w bi [] r vd v TypeError Hc Hl eq_refl).
    unfold verdict, resolve_var, lift, bind, outcome. simpl.
    destruct vd; simpl in *; try discriminate; reflexivity.
Qed.

Lemma X11_defaults_not_a_mapping_witness :
  outcome (init (mkWorld Scenario.lib (Scenario.only [])
                   (Scenario.one_file Scenario.bundled YNull))
                (Scenario.cfg true true None ["TS"])) =
  Raise TypeError.
Proof.
  exact (X11_defaults_not_a_mapping
           (mkWorld Scenario.lib (Scenario.only [])
              (Scenario.one_file Scenario.bundled YNull))
           (mkBasicInfo true None true None) ["TS"] YNull eq_refl eq_refl
           (or_intror eq_refl)).
Defined.

(* ===================================================================== *)
(** ** The fallback directory and the default name *)
(* ===================================================================== *)

(** An [obs_data_loc] that is the empty text is no fallback directory: the
    constructor makes the same calls and ends the same way as when the key
    is not set. *)
Lemma empty_obs_data_loc (w : World) (use cmp : bool)
    (custom : option string) (dvl : option (list string)) :
  init w (mkConfig (Some (mkBasicInfo use custom cmp (Some ""))) dvl) =
  init w (mkConfig (Some (mkBasicInfo use custom cmp None)) dvl).
Proof. reflexivity. Qed.

Lemma last_app_nonempty {A : Type} (l1 l2 : list A) (x : A) :
  l2 <> [] -> last (l1 ++ l2) x = last l2 x.
Proof.
  intros Hne. induction l1 as [|a r IH]; simpl; [reflexivity|].
  destruct (r ++ l2) eqn:E; [|exact IH].
  apply app_eq_nil in E. tauto.
Qed.

(** The last component of a path survives a join on its left. *)
Lemma name_joinpath (F p : PosixPath.Path) :
  PosixPath.tail p <> [] -> PosixPath.name (F // p) = PosixPath.name p.
Proof.
  intros Hne. unfold PosixPath.joinpath, PosixPath.name.
  destruct (Str.nonempty (PosixPath.root p)); [reflexivity|].
  simpl. now apply last_app_nonempty.
Qed.

(** X12: when the defaults of an accepted variable give no ["obs_name"], the
    stored name is the last component of the path written under
    ["obs_file"], whether the file was found there or under the fallback
    directory, provided that path has a component at all. *)
Theorem X12_default_name (w : World) (bi : BasicInfo) (L : list string)
    (o : AdfObs) (C m : list (string * yaml)) (s v : string) (r : ObsRecord) :
  outcome (init w (mkConfig (Some bi) (Some L))) = Ok o ->
  yaml_load w (defaults_file w (custom_defaults bi)) = Ok (YMap C) ->
  Py.lookup v C = Some (YMap m) ->
  Py.lookup "obs_file" m = Some (YStr s) ->
  Py.lookup "obs_name" m = None ->
  PosixPath.tail (PosixPath.of_string s) <> [] ->
  Py.lookup v (var_obs_dict o) = Some r ->
  obs_name r = YStr (PosixPath.name (PosixPath.of_string s)).
Proof.
  intros H Hl HC Hs Hn Ht Hr.
  destruct (catalog_entry w bi L o v r H Hr)
    as (_ & _ & C' & m' & s' & q & Hl' & HC' & Hs' & Hq & ->).
  rewrite Hl in Hl'. injection Hl' as <-.
  rewrite HC in HC'. injection HC' as <-.
  rewrite Hs in Hs'. injection Hs' as <-.
  unfold record_for. simpl. rewrite Hn. f_equal.
  unfold candidates in Hq. simpl in Hq.
  destruct (is_file w (PosixPath.of_string s)) as [[|]|e]; try discriminate.
  - now injection Hq as <-.
  - destruct (fallback (obs_data_loc bi)) as [F|]; simpl in Hq; [|discriminate].
    destruct (is_file w (F // PosixPath.of_string s)) as [[|]|e];
      try discriminate.
    injection Hq as <-. now apply name_joinpath.
Qed.

Lemma X12_default_name_witness :
  YStr "TS.nc" = YStr (PosixPath.name (PosixPath.of_string "/obs/TS.nc")).
Proof.
  refine (X12_default_name Scenario.w1 (mkBasicInfo true None true None)
            ["TS"; "PRECT"] Scenario.o1
            [("TS", YMap [("obs_file", YStr "/obs/TS.nc")])]
            [("obs_file", YStr "/obs/TS.nc")] "/obs/TS.nc" "TS"
            (mkObsRecord (PosixPath.mkPath "/" ["obs"; "TS.nc"])
                         (YStr "TS.nc") (YStr "TS"))
            eq_refl eq_refl eq_refl eq_refl eq_refl _ eq_refl).
  intros Hx. discriminate Hx.
Defined.

(** X13: a turn of the loop that does not raise touches no entry but the
    one of its own variable: every other variable keeps what it had, and no
    key is ever removed. *)
Theorem X13_turn_frame (w : World) (loc : option string) (f : string)
    (vd : yaml) (d d' : obs_dict) (var : string) :
  outcome (resolve_var w loc f vd d var) = Ok d' ->
  (forall v, v <> var -> Py.lookup v d' = Py.lookup v d) /\
  incl (Py.keys d) (Py.keys d').
Proof.
  rewrite resolve_var_outcome.
  destruct (verdict w loc f vd var) as [[r|]|e]; try discriminate;
    intros [= <-].
  - split.
    + intros v Hv. apply lookup_setitem_other. congruence.
    + rewrite keys_setitem. destruct (mem var (Py.keys d)).
      * apply incl_refl.
      * apply incl_appl, incl_refl.
  - split; [reflexivity | apply incl_refl].
Qed.

Lemma X13_turn_frame_witness :
  incl (Py.keys [("PS", mkObsRecord (PosixPath.mkPath "/" ["obs"; "PS.nc"])
                                    (YStr "PS.nc") (YStr "PS"))])
       (Py.keys [("PS", mkObsRecord (PosixPath.mkPath "/" ["obs"; "PS.nc"])
                                    (YStr "PS.nc") (YStr "PS"));
                 ("TS", mkObsRecord (PosixPath.mkPath "/" ["obs"; "TS.nc"])
                                    (YStr "TS.nc") (YStr "TS"))]).
Proof.
  exact (proj2 (X13_turn_frame Scenario.w1 None Scenario.bundled Scenario.C_TS
                  [("PS", mkObsRecord (PosixPath.mkPath "/" ["obs"; "PS.nc"])
                                      (YStr "PS.nc") (YStr "PS"))]
                  [("PS", mkObsRecord (PosixPath.mkPath "/" ["obs"; "PS.nc"])
                                      (YStr "PS.nc") (YStr "PS"));
                   ("TS", mkObsRecord (PosixPath.mkPath "/" ["obs"; "TS.nc"])
                                      (YStr "TS.nc") (YStr "TS"))]
                  "TS" eq_refl)).
Defined.

(* ===================================================================== *)
(** ** The properties of the class, over the store *)
(* ===================================================================== *)

Module AccessFacts.

Import Store Access.

Lemma store_yaml_seq (l : list yaml) (h : heap) :
  store_yaml (YSeq l) h =
  let '(h', vs) := thread_list store_yaml l h in alloc h' (OList vs).
Proof. reflexivity. Qed.

Lemma store_yaml_map (m : list (string * yaml)) (h : heap) :
  store_yaml (YMap m) h =
  let '(h', kvs) := thread_items store_yaml m h in alloc h' (ODict kvs).
Proof. reflexivity. Qed.

(** Placing values in the heap only adds objects at its end. *)
Lemma store_yaml_extends (y : yaml) :
  forall h, exists ext, fst (store_yaml y h) = h ++ ext.
Proof.
  induction y using yaml_induct; intros h;
    try (exists []; simpl; now rewrite app_nil_r).
  - rewrite store_yaml_seq.
    assert (Hl : forall h, exists ext, fst (thread_list store_yaml l h) = h ++ ext).
    { induction H as [|y r Hy Hr IH]; intros h0; simpl.
      - exists []. now rewrite app_nil_r.
      - destruct (Hy h0) as [e1 E1]. destruct (store_yaml y h0) as [h1 v].
        simpl in E1. subst h1.
        destruct (IH (h0 ++ e1)) as [e2 E2].
        destruct (thread_list store_yaml r (h0 ++ e1)) as [h2 vs].
        simpl in *. subst h2. exists (e1 ++ e2). now rewrite app_assoc. }
    destruct (Hl h) as [e E]. destruct (thread_list store_yaml l h) as [h' vs].
    simpl in *. subst h'. exists (e ++ [OList vs]). now rewrite app_assoc.
  - rewrite store_yaml_map.
    assert (Hl : forall h, exists ext, fst (thread_items store_yaml m h) = h ++ ext).
    { induction H as [|[k y] r Hy Hr IH]; intros h0; simpl.
      - exists []. now rewrite app_nil_r.
      - simpl in Hy. destruct (Hy h0) as [e1 E1].
        destruct (store_yaml y h0) as [h1 v]. simpl in E1. subst h1.
        destruct (IH (h0 ++ e1)) as [e2 E2].
        destruct (thread_items store_yaml r (h0 ++ e1)) as [h2 vs].
        simpl in *. subst h2. exists (e1 ++ e2). now rewrite app_assoc. }
    destruct (Hl h) as [e E]. destruct (thread_items store_yaml m h) as [h' vs].
    simpl in *. subst h'. exists (e ++ [ODict vs]). now rewrite app_assoc.
Qed.

Lemma store_records_extends (d : obs_dict) :
  forall h, exists ext, fst (store_records d h) = h ++ ext.
Proof.
  induction d as [|[var r] rest IH]; intros h; simpl.
  - exists []. now rewrite app_nil_r.
  - destruct (store_yaml_extends (obs_name r) h) as [e1 E1].
    destruct (store_yaml (obs_name r) h) as [h1 vname]. simpl in E1. subst h1.
    destruct (store_yaml_extends (obs_var r) (h ++ e1)) as [e2 E2].
    destruct (store_yaml (obs_var r) (h ++ e1)) as [h2 vvar]. simpl in E2.
    subst h2.
    match goal with
    | |- context [store_records rest ?hh] =>
        destruct (IH hh) as [e3 E3]; destruct (store_records rest hh) as [h4 kvs]
    end.
    simpl in *. subst h4. eexists. rewrite <- !app_assoc. reflexivity.
Qed.

Lemma store_obs_dict_extends (d : obs_dict) (h : heap) :
  exists ext, fst (store_obs_dict d h) = h ++ ext.
Proof.
  unfold store_obs_dict. destruct (store_records_extends d h) as [e E].
  destruct (store_records d h) as [h' kvs]. simpl in *. subst h'.
  exists (e ++ [ODict kvs]). now rewrite app_assoc.
Qed.

Lemma flat_names (L : list string) : forallb flat_value (map VStr L) = true.
Proof. induction L; simpl; auto. Qed.

(** In the instance of any object, the attribute of the variable list
    refers to a list of strings. *)
Lemma new_instance_var_list (o : AdfObs) :
  exists a,
    a_diag_var_list (snd (new_instance o)) = VRef a /\
    nth_error (fst (new_instance o)) a =
    Some (OList (map VStr (__diag_var_list o))).
Proof.
  unfold new_instance.
  destruct (store_yaml (__variable_defaults o) []) as [h1 vdef].
  simpl.
  destruct (store_obs_dict_extends (__var_obs_dict o)
              (h1 ++ [OList (map VStr (__diag_var_list o))])) as [e E].
  destruct (store_obs_dict (__var_obs_dict o)
              (h1 ++ [OList (map VStr (__diag_var_list o))])) as [h3 vobs].
  simpl in *. subst h3. exists (length h1). split; [reflexivity|].
  rewrite nth_error_app1 by (rewrite length_app; simpl; lia).
  rewrite nth_error_app2, Nat.sub_diag by lia. reflexivity.
Qed.

Lemma new_instance_bools (o : AdfObs) :
  a_use_defaults (snd (new_instance o)) = VBool (__use_defaults o) /\
  a_compare_obs (snd (new_instance o)) = VBool (__compare_obs o).
Proof.
  unfold new_instance.
  destruct (store_yaml (__variable_defaults o) []) as [h1 vdef]. simpl.
  destruct (store_obs_dict (__var_obs_dict o) _) as [h3 vobs]. now split.
Qed.

Lemma traverse_ext {A B : Type} (f g : A -> option B) (l : list A)
    (ys : list B) :
  (forall x y, In x l -> f x = Some y -> g x = Some y) ->
  traverse f l = Some ys -> traverse g l = Some ys.
Proof.
  revert ys. induction l as [|x r IH]; intros ys Hfg; simpl; [auto|].
  destruct (f x) as [y|] eqn:Ex; [|discriminate].
  destruct (traverse f r) as [ys'|] eqn:Er; [|discriminate].
  intros [= <-]. rewrite (Hfg x y (or_introl eq_refl) Ex).
  rewrite (IH ys'); auto. intros x' y' Hin. apply Hfg. now right.
Qed.

(** What a value reads does not change when objects are added to the
    heap. *)
Lemma snapshot_extend (n : nat) (h ext : heap) :
  forall v d, snapshot n h v = Some d -> snapshot n (h ++ ext) v = Some d.
Proof.
  induction n as [|n IH]; intros v d; destruct v; simpl; auto.
  destruct (nth_error h a) as [o|] eqn:E; [|discriminate].
  rewrite nth_error_app1 by (apply nth_error_Some; congruence).
  rewrite E. destruct o as [items|items].
  - destruct (traverse _ items) as [ys|] eqn:Et; [|discriminate].
    intros [= <-].
    assert (Hg : traverse (fun kv => option_map (pair (fst kv))
                                       (snapshot n (h ++ ext) (snd kv)))
                          items = Some ys).
    { revert Et. apply traverse_ext. intros [k v] y _. simpl.
      destruct (snapshot n h v) as [d0|] eqn:Es; [|discriminate].
      now rewrite (IH v d0 Es). }
    now rewrite Hg.
  - destruct (traverse _ items) as [ys|] eqn:Et; [|discriminate].
    intros [= <-].
    assert (Hg : traverse (snapshot n (h ++ ext)) items = Some ys).
    { revert Et. apply traverse_ext. intros v y _. apply IH. }
    now rewrite Hg.
Qed.

(** The copy reads as the original did, and the original still does. *)
Lemma copy_snapshot (n : nat) (h : heap) (v : value) (d : deep) :
  snapshot n h v = Some d ->
  snapshot n (fst (copy_copy h v)) (snd (copy_copy h v)) = Some d /\
  snapshot n (fst (copy_copy h v)) v = Some d.
Proof.
  intros H. unfold copy_copy.
  destruct v as [| | | | |a]; simpl; auto.
  destruct (nth_error h a) as [o|] eqn:E; simpl; auto.
  split; [|now apply snapshot_extend].
  pose proof (snapshot_extend n h [o] (VRef a) d H) as Hx.
  destruct n as [|n]; [discriminate|]. simpl in *.
  rewrite nth_error_app1 in Hx by (apply nth_error_Some; congruence).
  rewrite E in Hx.
  rewrite nth_error_app2, Nat.sub_diag by lia. exact Hx.
Qed.

Lemma table_copy attr prop :
  In (attr, prop) table ->
  forall h self, prop h self = copy_copy h (attr self).
Proof.
  simpl. intros [H|[H|[H|[H|[H|[]]]]]]; injection H as <- <-; reflexivity.
Qed.

Lemma flat_table_In attr prop :
  In (attr, prop) flat_table -> In (attr, prop) table.
Proof.
  simpl. intros [H|[H|[H|[]]]]; injection H as <- <-; auto 6.
Qed.

End AccessFacts.

(** X14: what any of the five properties returns reads, all the way down,
    as the attribute it copies, and taking it leaves the attribute reading
    as before. *)
Theorem X14_property_content (attr : Store.instance -> Store.value)
    (prop : Store.heap -> Store.instance -> Store.heap * Store.value)
    (n : nat) (h : Store.heap) (self : Store.instance) (d : Store.deep) :
  In (attr, prop) Access.table ->
  Store.snapshot n h (attr self) = Some d ->
  Store.snapshot n (fst (prop h self)) (snd (prop h self)) = Some d /\
  Store.snapshot n (fst (prop h self)) (attr self) = Some d.
Proof.
  intros Hin H. rewrite (AccessFacts.table_copy attr prop Hin).
  now apply AccessFacts.copy_snapshot.
Qed.

Lemma X14_property_content_witness :
  Store.snapshot 2
    (fst (Store.prop_var_obs_dict (fst (Store.new_instance Scenario.o1))
            (snd (Store.new_instance Scenario.o1))))
    (snd (Store.prop_var_obs_dict (fst (Store.new_instance Scenario.o1))
            (snd (Store.new_instance Scenario.o1)))) =
  Some (Store.DDict
          [("TS", Store.DDict
                    [("obs_file", Store.DPath (PosixPath.mkPath "/" ["obs"; "TS.nc"]));
                     ("obs_name", Store.DStr "TS.nc");
                     ("obs_var", Store.DStr "TS")])]).
Proof.
  exact (proj1 (X14_property_content Store.a_var_obs_dict Store.prop_var_obs_dict
                  2 (fst (Store.new_instance Scenario.o1))
                  (snd (Store.new_instance Scenario.o1))
                  (Store.DDict
                     [("TS", Store.DDict
                               [("obs_file",
                                 Store.DPath (PosixPath.mkPath "/" ["obs"; "TS.nc"]));
                                ("obs_name", Store.DStr "TS.nc");
                                ("obs_var", Store.DStr "TS")])])
                  (or_intror (or_intror (or_intror (or_intror (or_introl eq_refl)))))
                  eq_refl)).
Defined.

(** X15: a caller that assigns keys, deletes keys or appends at the top of
    what any of the five properties returned, in any number and order,
    changes no object the instance holds. *)
Theorem X15_top_level_isolated (attr : Store.instance -> Store.value)
    (prop : Store.heap -> Store.instance -> Store.heap * Store.value)
    (h : Store.heap) (self : Store.instance) (ops : list Store.caller_op) :
  In (attr, prop) Access.table ->
  forallb Store.top_level ops = true ->
  firstn (length h)
         (Store.apply_ops (fst (prop h self)) (snd (prop h self)) ops) = h.
Proof.
  intros Hin Hall. rewrite (AccessFacts.table_copy attr prop Hin).
  now apply StoreFacts.copy_isolates_top_level.
Qed.

Lemma X15_top_level_isolated_witness :
  firstn (length (fst (Store.new_instance Scenario.o1)))
    (Store.apply_ops
       (fst (Store.prop_var_obs_dict (fst (Store.new_instance Scenario.o1))
               (snd (Store.new_instance Scenario.o1))))
       (snd (Store.prop_var_obs_dict (fst (Store.new_instance Scenario.o1))
               (snd (Store.new_instance Scenario.o1))))
       [Store.DelItem [] "TS"; Store.SetItem [] "PS" (Store.VStr "x")]) =
  fst (Store.new_instance Scenario.o1).
Proof.
  exact (X15_top_level_isolated Store.a_var_obs_dict Store.prop_var_obs_dict
           (fst (Store.new_instance Scenario.o1))
           (snd (Store.new_instance Scenario.o1))
           [Store.DelItem [] "TS"; Store.SetItem [] "PS" (Store.VStr "x")]
           (or_intror (or_intror (or_intror (or_intror (or_introl eq_refl)))))
           eq_refl).
Defined.

(** X16: for the instance of any object, what [use_defaults], [compare_obs]
    and [diag_var_list] return gives a caller no way to the instance:
    whatever keys it assigns or deletes and whatever it appends, at any
    depth, as long as the values it puts in are immutable, no object the
    instance holds changes. *)
Theorem X16_flat_properties_isolated (o : AdfObs)
    (attr : Store.instance -> Store.value)
    (prop : Store.heap -> Store.instance -> Store.heap * Store.value)
    (ops : list Store.caller_op) :
  In (attr, prop) Access.flat_table ->
  forallb Store.flat_op ops = true ->
  let h := fst (Store.new_instance o) in
  let self := snd (Store.new_instance o) in
  firstn (length h)
         (Store.apply_ops (fst (prop h self)) (snd (prop h self)) ops) = h.
Proof.
  intros Hin Hall h self.
  rewrite (AccessFacts.table_copy attr prop (AccessFacts.flat_table_In _ _ Hin)).
  apply StoreFacts.copy_isolates_flat; [|exact Hall].
  destruct (AccessFacts.new_instance_bools o) as [Hu Hc].
  destruct (AccessFacts.new_instance_var_list o) as (a & Ha & Hn).
  simpl in Hin. destruct Hin as [H|[H|[H|[]]]]; injection H as <- <-.
  - subst self. now rewrite Hu.
  - subst self. now rewrite Hc.
  - subst self h. rewrite Ha, Hn. simpl. apply AccessFacts.flat_names.
Qed.

Lemma X16_flat_properties_isolated_witness :
  firstn (length (fst (Store.new_instance Scenario.o1)))
    (Store.apply_ops
       (fst (Store.prop_diag_var_list (fst (Store.new_instance Scenario.o1))
               (snd (Store.new_instance Scenario.o1))))
       (snd (Store.prop_diag_var_list (fst (Store.new_instance Scenario.o1))
               (snd (Store.new_instance Scenario.o1))))
       [Store.Append [] (Store.VStr "U"); Store.SetItem ["TS"] "x" Store.VNone]) =
  fst (Store.new_instance Scenario.o1).
Proof.
  exact (X16_flat_properties_isolated Scenario.o1
           Store.a_diag_var_list Store.prop_diag_var_list
           [Store.Append [] (Store.VStr "U"); Store.SetItem ["TS"] "x" Store.VNone]
           (or_intror (or_intror (or_introl eq_refl))) eq_refl).
Defined.
